(** * Keras ELMo tutorial notebook: a shallow embedding and its properties

    The notebook [Keras_ELMo_Tutorial.ipynb] is a sequence of code cells run
    top to bottom.  Its own code is plumbing around four libraries (os,
    numpy, keras, allennlp).  The plumbing is embedded here function by
    function; what the libraries compute is taken through the interfaces
    [Float32], [OS], [Random], [Keras] and [AllenNLP] below. *)

From stdpp Require Import base option list gmap strings.
From Stdlib Require Import ZArith Ascii.

Local Open Scope Z_scope.
Local Open Scope nat_scope.

(* ===================================================================== *)
(** ** Python exceptions and the error monad                             *)
(* ===================================================================== *)

(** The exceptions the notebook's operations can raise.  [LibraryError]
    stands for whatever a library call raises on its own account (a failed
    download, CUDA running out of memory, ...). *)
Inductive exn : Type :=
| KeyError (key : string)
| IndexError
| ValueError
| TypeError
| ZeroDivisionError
| RuntimeError (msg : string)
| OSError (path : string)
| LibraryError (msg : string).

Inductive except (A : Type) : Type :=
| Raise (e : exn)
| Ok (a : A).
Arguments Raise {A} e.
Arguments Ok {A} a.

#[export] Instance except_ret : MRet except := @Ok.
#[export] Instance except_bind : MBind except := λ A B f m,
  match m with
  | Raise e => Raise e
  | Ok a => f a
  end.
#[export] Instance except_fmap : FMap except := λ A B f m,
  match m with
  | Raise e => Raise e
  | Ok a => Ok (f a)
  end.

(** [for x in l: s = body(s, x)], stopping at the first exception. *)
Fixpoint for_each {A S : Type} (body : S → A → except S) (s : S) (l : list A)
  : except S :=
  match l with
  | [] => Ok s
  | x :: l' => s' ← body s x; for_each body s' l'
  end.

(** [l[i]] on a Python list. *)
Definition list_get {A : Type} (l : list A) (i : nat) : except A :=
  match l !! i with
  | Some x => Ok x
  | None => Raise IndexError
  end.

(* ===================================================================== *)
(** ** numpy arrays                                                       *)
(* ===================================================================== *)

(** The entries of the arrays are float32 numbers; their arithmetic is
    numpy's.  The notebook needs a zero ([np.zeros]) and the mean of a few
    numbers ([np.average]). *)
Class Float32 (F : Type) : Type := {
  f32_zero : F;
  f32_mean : list F → F
}.

(** An n-dimensional array: its shape and its entries in row-major order. *)
Record ndarray (F : Type) : Type := NDArray {
  shape : list nat;
  data : list F
}.
Arguments NDArray {F} shape data.
Arguments shape {F} _.
Arguments data {F} _.

(** Number of entries of an array of the given shape. *)
Definition size_of (s : list nat) : nat := foldr Nat.mul 1 s.

Definition wf_ndarray {F} (a : ndarray F) : Prop :=
  length (data a) = size_of (shape a).

(** Offset of a full index into the row-major data; [None] when the index
    has the wrong number of coordinates or one of them is out of range. *)
Fixpoint offset (s idx : list nat) : option nat :=
  match s, idx with
  | [], [] => Some 0
  | n :: s', i :: idx' =>
      if decide (i < n) then o ← offset s' idx'; Some (i * size_of s' + o)
      else None
  | _, _ => None
  end.

(** [a[i, j, ...]] for a full index. *)
Definition nd_get {F} (a : ndarray F) (idx : list nat) : option F :=
  o ← offset (shape a) idx; data a !! o.

Section numpy.
Context {F : Type} {num : Float32 F}.

(** [a.shape[k]]: the shape is a tuple, indexing past it is an IndexError. *)
Definition shape_at (a : ndarray F) (k : nat) : except nat :=
  list_get (shape a) k.

(** [np.zeros(s)]. *)
Definition np_zeros (s : list nat) : ndarray F :=
  NDArray s (replicate (size_of s) f32_zero).

(** [np.append(a, v, axis=0)], that is [np.concatenate((a, v), axis=0)]:
    both arrays need at least one dimension and the same shape after the
    first one. *)
Definition np_append (a v : ndarray F) : except (ndarray F) :=
  match shape a, shape v with
  | r :: s, p :: s' =>
      if decide (s = s') then Ok (NDArray (r + p :: s) (data a ++ data v))
      else Raise ValueError
  | _, _ => Raise ValueError
  end.

(** [np.array(xs, dtype=np.float32)] for a Python list [xs] of arrays: the
    arrays are stacked along a new first axis when they all have one shape;
    an empty list gives the empty one-dimensional array; a ragged list
    cannot be stored with a float dtype. *)
Definition np_array (xs : list (ndarray F)) : except (ndarray F) :=
  match xs with
  | [] => Ok (NDArray [0] [])
  | a :: rest =>
      if forallb (λ b, bool_decide (shape b = shape a)) rest
      then Ok (NDArray (length xs :: shape a) (concat (data <$> xs)))
      else Raise ValueError
  end.

(** [np.average(a, axis=0)] without weights: the mean over the first axis,
    entry by entry.  After [avg = a.mean(0)] numpy computes the scale
    [a.size/avg.size], a division of Python numbers: when the result has no
    entry (as for an array of shape [(3, 0, D)]) this is [0/0] and raises
    ZeroDivisionError.  An array without axes has no axis 0. *)
Definition np_average (a : ndarray F) : except (ndarray F) :=
  match shape a with
  | [] => Raise ValueError
  | k :: s =>
      if decide (size_of s = 0) then Raise ZeroDivisionError
      else
        Ok (NDArray s
              ((λ j, f32_mean (omap (λ l, data a !! (l * size_of s + j)) (seq 0 k)))
                 <$> seq 0 (size_of s)))
  end.
End numpy.

(* ===================================================================== *)
(** ** Cell 5: padding                                                    *)
(* ===================================================================== *)

(** [max_tokens = 100], assigned once in cell 3 and read by cells 3 and 5. *)
Definition max_tokens : Z := 100.
Arguments max_tokens : simpl never.

Section padding.
Context {F : Type} {num : Float32 F}.

(** One round of the loop of [pad_x_matrix].  [sent] is already an array of
    float32, so [np.array(sent, dtype=np.float32)] is a copy of it; the
    zeros appended are float64 and make the padded array float64, which
    the final [np.array(..., dtype=np.float32)] narrows again: float32 to
    float64 and back is exact, so the entries are the same elements of [F]
    throughout. *)
Definition pad_step (x_matrix : list (ndarray F)) (sentenceIdx : nat)
  : except (list (ndarray F)) :=
  sent ← list_get x_matrix sentenceIdx;
  let sentence_vec := sent in
  rows ← shape_at sentence_vec 0;
  let padding_length := (max_tokens - Z.of_nat rows)%Z in
  if decide (padding_length > 0)%Z then
    cols ← shape_at sentence_vec 1;
    padded ← np_append sent (np_zeros [Z.to_nat padding_length; cols]);
    Ok (<[sentenceIdx := padded]> x_matrix)
  else Ok x_matrix.

(** The list [x_matrix] is updated in place, then stacked into one array. *)
Definition pad_x_matrix (x_matrix : list (ndarray F)) : except (ndarray F) :=
  x_matrix' ← for_each pad_step x_matrix (seq 0 (length x_matrix));
  np_array x_matrix'.
End padding.

(* ===================================================================== *)
(** ** Documents: dictionaries on a heap                                  *)
(* ===================================================================== *)

(** The values the notebook stores in a document. *)
Inductive value : Type :=
| VStr (s : string)
| VInt (z : Z)
| VList (l : list string).

(** A document is a Python dict with string keys.  Documents are objects:
    the lists [train_data] and [test_data] hold references to them and
    [tokenize_text] updates them in place, so they live on a heap and the
    lists hold locations. *)
Abbreviation dict := (gmap string value).
Abbreviation loc := nat.
Abbreviation heap := (list (gmap string value)).

(** A new object: the next free location and the extended heap. *)
Definition alloc (h : heap) (d : dict) : loc * heap := (length h, h ++ [d]).

(** Following a reference.  Every location the notebook holds was returned
    by [alloc], so the error case is never reached by its own lists. *)
Definition deref (h : heap) (l : loc) : except dict :=
  match h !! l with
  | Some d => Ok d
  | None => Raise (RuntimeError "dangling reference")
  end.

(** [d[key]]. *)
Definition dict_get (d : dict) (key : string) : except value :=
  match d !! key with
  | Some v => Ok v
  | None => Raise (KeyError key)
  end.

(** What a library that wants a [str] does with the value it is given. *)
Definition as_str (v : value) : except string :=
  match v with
  | VStr s => Ok s
  | _ => Raise TypeError
  end.

(** What list slicing and the embedder do with a value that should be a
    list of tokens. *)
Definition as_list (v : value) : except (list string) :=
  match v with
  | VList l => Ok l
  | _ => Raise TypeError
  end.

(** [l[0:stop]]: a negative [stop] counts from the end of the list. *)
Definition py_slice0 {A : Type} (l : list A) (stop : Z) : list A :=
  if decide (0 ≤ stop)%Z then take (Z.to_nat stop) l
  else take (Z.to_nat (Z.of_nat (length l) + stop)) l.

(** [s.replace(old, new)]: the occurrences of [old] are found from left to
    right and do not overlap.  [skip] counts the characters of a matched
    occurrence that are still to be dropped. *)
Fixpoint replace_from (old new : string) (skip : nat) (s : string) : string :=
  match s with
  | EmptyString => EmptyString
  | String c s' =>
      match skip with
      | S k => replace_from old new k s'
      | O =>
          if String.prefix old s
          then new +:+ replace_from old new (String.length old - 1) s'
          else String c (replace_from old new 0 s')
      end
  end.

(** With an empty [old], Python puts [new] before every character and at the
    end. *)
Fixpoint replace_empty (new : string) (s : string) : string :=
  match s with
  | EmptyString => new
  | String c s' => new +:+ String c (replace_empty new s')
  end.

Definition str_replace (s old new : string) : string :=
  match old with
  | EmptyString => replace_empty new s
  | _ => replace_from old new 0 s
  end.

(* ===================================================================== *)
(** ** The libraries the notebook calls                                   *)
(* ===================================================================== *)

(** [os] and [open]: listing a directory and reading a file can fail. *)
Class OS : Type := {
  os_listdir : string → except (list string);
  os_path_join : string → string → string;
  os_path_dirname : string → string;
  (** [open(path, "r")] followed by [f.read()] *)
  open_read : string → except string
}.

(** [random.shuffle(l)] permutes the list [l] in place; the first argument
    numbers the calls, the permutation may differ from call to call. *)
Class Random : Type := {
  random_shuffle : nat → list loc → list loc;
  random_shuffle_perm : ∀ k l, random_shuffle k l ≡ₚ l
}.

(** A Python generator, by what it does when it is run to its end: the items
    it yields, then either a normal end or an exception. *)
Record generator (A : Type) : Type := Generator {
  yields : list A;
  raises : option exn
}.
Arguments Generator {A} yields raises.
Arguments yields {A} _.
Arguments raises {A} _.

(** [allennlp]: making the embedder (loading the pretrained model) can
    fail; [embed_sentences] is a generator of one array per sentence. *)
Class AllenNLP (F : Type) : Type := {
  elmo_embedder : Type;
  ElmoEmbedder : Z → except elmo_embedder;
  embed_sentences : elmo_embedder → list (list string) → generator (ndarray F)
}.

(** The layers of [keras.layers] the notebook instantiates. *)
Inductive layer : Type :=
| Conv1D (filters kernel_size : nat) (padding : string)
| GlobalMaxPooling1D
| Dense (units : nat) (activation : string).

(** [keras]: the download helper, the tokenizer and the two steps of
    training a compiled model.  [keras_build] is what [fit] does before its
    first epoch (it checks the data against the layers and creates the
    weights) and can fail; [keras_train_epoch] is one pass over the training
    data in batches. *)
Class Keras (F : Type) : Type := {
  keras_utils_get_file : string → string → bool → except string;
  text_to_word_sequence : string → bool → list string;
  weights : Type;
  keras_build : list layer → ndarray F → list value → except weights;
  keras_train_epoch :
    weights → ndarray F → list value → ndarray F * list value → nat → weights
}.

(* ===================================================================== *)
(** ** Cell 2: the dataset                                                *)
(* ===================================================================== *)

Section dataset.
Context {os : OS} {rnd : Random} {F : Type} {ker : Keras F}.

(** One round of the loop of [load_directory_data]: [data] is the list
    being built, the new dict is a new object. *)
Definition load_file (directory : string) (label : Z)
    (st : list loc * heap) (file_path : string) : except (list loc * heap) :=
  contents ← open_read (os_path_join directory file_path);
  let d : dict :=
    {[ "text" := VStr (str_replace contents "<br />" " ");
       "label" := VInt label ]} in
  let '(l, h) := alloc st.2 d in
  Ok (st.1 ++ [l], h).

Definition load_directory_data (directory : string) (label : Z) (h : heap)
  : except (list loc * heap) :=
  names ← os_listdir directory;
  for_each (load_file directory label) ([], h) names.

Definition load_dataset (directory : string) (h : heap)
  : except (list loc * heap) :=
  '(pos_data, h) ← load_directory_data (os_path_join directory "pos") 1 h;
  '(neg_data, h) ← load_directory_data (os_path_join directory "neg") 0 h;
  Ok (pos_data ++ neg_data, h).

Definition download_and_load_datasets (h : heap)
  : except (list loc * list loc * heap) :=
  dataset ← keras_utils_get_file "aclImdb.tar.gz"
    "http://ai.stanford.edu/~amaas/data/sentiment/aclImdb_v1.tar.gz" true;
  '(train_data, h) ←
    load_dataset (os_path_join (os_path_join (os_path_dirname dataset) "aclImdb") "train") h;
  '(test_data, h) ←
    load_dataset (os_path_join (os_path_join (os_path_dirname dataset) "aclImdb") "test") h;
  Ok (train_data, test_data, h).

(** The cell: the kernel starts with no objects. *)
Definition cell_2 : except (list loc * list loc * heap) :=
  '(train_data, test_data, h) ← download_and_load_datasets [];
  let train_data := random_shuffle 0 train_data in
  let test_data := random_shuffle 1 test_data in
  Ok (train_data, test_data, h).
End dataset.

(* ===================================================================== *)
(** ** Cell 3: tokenization                                               *)
(* ===================================================================== *)

Section tokenization.
Context {F : Type} {ker : Keras F}.

(** One round of the loop of [tokenize_text]: two assignments to
    [document['tokens']], each an update of the object in place. *)
Definition tokenize_document (max_tokens : Z) (h : heap) (document : loc)
  : except heap :=
  d ← deref h document;
  text ← dict_get d "text" ≫= as_str;
  let h := <[document := <["tokens" := VList (text_to_word_sequence text false)]> d]> h in
  d ← deref h document;
  tokens ← dict_get d "tokens" ≫= as_list;
  Ok (<[document := <["tokens" := VList (py_slice0 tokens max_tokens)]> d]> h).

Definition tokenize_text (documents : list loc) (max_tokens : Z) (h : heap)
  : except heap :=
  for_each (tokenize_document max_tokens) h documents.

Definition cell_3 (train_data test_data : list loc) (h : heap) : except heap :=
  h ← tokenize_text train_data max_tokens h;
  tokenize_text test_data max_tokens h.
End tokenization.

(* ===================================================================== *)
(** ** Cell 4: the ELMo embeddings                                        *)
(* ===================================================================== *)

Section embeddings.
Context {F : Type} {num : Float32 F} {nlp : AllenNLP F}.

(** [min(max_sentences, len(documents)) if max_sentences > 0 else
    len(documents)]. *)
Definition num_sentences_of (max_sentences : Z) (documents : list loc) : Z :=
  if decide (max_sentences > 0)%Z
  then Z.min max_sentences (Z.of_nat (length documents))
  else Z.of_nat (length documents).

(** [[document['tokens'] for document in documents]]. *)
Definition tokens_of (h : heap) (documents : list loc)
  : except (list (list string)) :=
  mapM (M:=except) (λ document, d ← deref h document; dict_get d "tokens" ≫= as_list)
    documents.

(** The loop of [create_elmo_embeddings] over the items the generator
    yields.  The state is [(embeddings, labels, documentIdx)].  The progress
    line written to stdout is left out, but not the division that computes
    its percentage.  When the items run out the generator ends, normally
    or with the exception it raises; a [break] leaves it unfinished. *)
Fixpoint embed_loop (h : heap) (documents : list loc)
    (max_sentences num_sentences : Z)
    (items : list (ndarray F)) (at_end : option exn)
    (st : list (ndarray F) * list value * nat)
  : except (list (ndarray F) * list value) :=
  match items with
  | [] =>
      match at_end with
      | Some e => Raise e
      | None => Ok (st.1.1, st.1.2)
      end
  | elmo_embedding :: items' =>
      let '(embeddings, labels, documentIdx) := st in
      document ← list_get documents documentIdx ≫= deref h;
      avg_elmo_embedding ← np_average elmo_embedding;
      let embeddings := embeddings ++ [avg_elmo_embedding] in
      label ← dict_get document "label";
      let labels := labels ++ [label] in
      let documentIdx := documentIdx + 1 in
      if decide (num_sentences = 0)%Z then Raise ZeroDivisionError
      else if decide (max_sentences > 0 ∧ Z.of_nat documentIdx >= max_sentences)%Z
      then Ok (embeddings, labels)
      else embed_loop h documents max_sentences num_sentences items' at_end
             (embeddings, labels, documentIdx)
  end.

Definition create_elmo_embeddings (elmo : elmo_embedder)
    (documents : list loc) (max_sentences : Z) (h : heap)
  : except (list (ndarray F) * list value) :=
  let num_sentences := num_sentences_of max_sentences documents in
  tokens ← tokens_of h documents;
  let g := embed_sentences elmo tokens in
  embed_loop h documents max_sentences num_sentences (yields g) (raises g)
    ([], [], 0).

Definition cell_4 (train_data test_data : list loc) (h : heap)
  : except (list (ndarray F) * list value * list (ndarray F) * list value) :=
  elmo ← ElmoEmbedder 1;
  '(train_x, train_y) ← create_elmo_embeddings elmo train_data 1000 h;
  '(test_x, test_y) ← create_elmo_embeddings elmo test_data 1000 h;
  Ok (train_x, train_y, test_x, test_y).

(** Cell 5.  [np.array(train_y)] puts the labels, a flat list of scalars,
    into an array of the same entries; the two shapes are printed. *)
Definition cell_5 (train_x : list (ndarray F)) (train_y : list value)
    (test_x : list (ndarray F)) (test_y : list value)
  : except (ndarray F * list value * ndarray F * list value) :=
  train_x ← pad_x_matrix train_x;
  test_x ← pad_x_matrix test_x;
  Ok (train_x, train_y, test_x, test_y).
End embeddings.

(* ===================================================================== *)
(** ** Cell 6: the classifier                                             *)
(* ===================================================================== *)

(** A [keras.models.Sequential]: the layers added so far and the arguments
    of [compile], once it was called. *)
Record Sequential : Type := {
  layers : list layer;
  compiled : option (string * string * list string)
}.

(** [Sequential()] *)
Definition Sequential_new : Sequential := {| layers := []; compiled := None |}.

(** [model.add(l)] *)
Definition add (model : Sequential) (l : layer) : Sequential :=
  {| layers := layers model ++ [l]; compiled := compiled model |}.

(** [model.compile(loss=..., optimizer=..., metrics=...)] *)
Definition compile (model : Sequential) (loss optimizer : string)
    (metrics : list string) : Sequential :=
  {| layers := layers model; compiled := Some (loss, optimizer, metrics) |}.

(** The five statements that make the model, up to [compile]. *)
Definition model_layers : Sequential :=
  let model := Sequential_new in
  let model := add model (Conv1D 250 3 "same") in
  let model := add model GlobalMaxPooling1D in
  let model := add model (Dense 250 "relu") in
  let model := add model (Dense 1 "sigmoid") in
  model.

Definition model : Sequential :=
  compile model_layers "binary_crossentropy" "adam" ["accuracy"].

Section training.
Context {F : Type} {ker : Keras F}.

(** What [fit] returns: [History.epoch], the epochs that were run, next to
    the weights they left. *)
Record History : Type := {
  epoch : list nat;
  trained : weights
}.

(** The loop of [fit]: [for epoch in range(epochs)].  No callback is passed
    to [fit], so nothing sets [stop_training] and the loop has no early
    exit. *)
Definition fit_loop (w : weights) (x : ndarray F) (y : list value)
    (validation_data : ndarray F * list value) (epochs batch_size : nat)
  : History :=
  foldl (λ hist e,
           {| epoch := epoch hist ++ [e];
              trained := keras_train_epoch (trained hist) x y validation_data
                           batch_size |})
        {| epoch := []; trained := w |} (seq 0 epochs).

(** [model.fit(x, y, validation_data=..., epochs=..., batch_size=...)]: a
    model that was not compiled is refused. *)
Definition fit (model : Sequential) (x : ndarray F) (y : list value)
    (validation_data : ndarray F * list value) (epochs batch_size : nat)
  : except History :=
  match compiled model with
  | None => Raise (RuntimeError "You must compile a model before training/testing.")
  | Some _ =>
      w ← keras_build (layers model) x y;
      Ok (fit_loop w x y validation_data epochs batch_size)
  end.

Definition cell_6 (train_x : ndarray F) (train_y : list value)
    (test_x : ndarray F) (test_y : list value) : except History :=
  fit model train_x train_y (test_x, test_y) 10 32.
End training.

(* ===================================================================== *)
(** ** The notebook                                                       *)
(* ===================================================================== *)

Section notebook.
Context {os : OS} {rnd : Random} {F : Type} {num : Float32 F} {ker : Keras F} {nlp : AllenNLP F}.

(** The names bound in the kernel when the last cell has run. *)
Record globals : Type := {
  train_data : list loc;
  test_data : list loc;
  objects : heap;
  train_x : ndarray F;
  train_y : list value;
  test_x : ndarray F;
  test_y : list value;
  history : History
}.

(** The code cells, top to bottom.  (Cell 1 imports the libraries; cell 7
    prints [model.summary()].) *)
Definition notebook : except globals :=
  '(train_data, test_data, h) ← cell_2;
  h ← cell_3 train_data test_data h;
  '(train_x, train_y, test_x, test_y) ← cell_4 train_data test_data h;
  '(train_x, train_y, test_x, test_y) ← cell_5 train_x train_y test_x test_y;
  history ← cell_6 train_x train_y test_x test_y;
  Ok {| train_data := train_data; test_data := test_data; objects := h;
        train_x := train_x; train_y := train_y;
        test_x := test_x; test_y := test_y; history := history |}.
End notebook.

(* ===================================================================== *)
(** ** Notions used in the statements                                     *)
(* ===================================================================== *)

Section notions.
Context {os : OS} {F : Type} {num : Float32 F} {ker : Keras F}.

(** What the loop of [pad_x_matrix] leaves in place of a two-dimensional
    array. *)
Definition padded (a : ndarray F) : ndarray F :=
  match shape a with
  | [n; c] =>
      if decide (Z.of_nat n < max_tokens)%Z
      then NDArray [Z.to_nat max_tokens; c]
             (data a ++ replicate ((Z.to_nat max_tokens - n) * c) f32_zero)
      else a
  | _ => a
  end.

(** A document after [tokenize_text]. *)
Definition tokenized (max_tokens : Z) (d : dict) : dict :=
  match d !! "text" with
  | Some (VStr s) =>
      <["tokens" := VList (py_slice0 (text_to_word_sequence s false) max_tokens)]> d
  | _ => d
  end.

(** A document as [load_directory_data] makes it: the contents of a file
    with the line breaks replaced, and the label of its directory. *)
Definition raw_document (d : dict) : Prop :=
  ∃ (path contents : string) (label : Z),
    open_read path = Ok contents ∧ (label = 1 ∨ label = 0)%Z ∧
    d = {[ "text" := VStr (str_replace contents "<br />" " ");
           "label" := VInt label ]}.

(** The documents of a list are on the heap and are as they were made. *)
Definition loaded (data : list loc) (h : heap) : Prop :=
  ∀ l, l ∈ data → ∃ d, h !! l = Some d ∧ raw_document d.

(** Whether [old] occurs in [s]: some suffix of [s] starts with it. *)
Fixpoint occurs (old s : string) : bool :=
  match s with
  | EmptyString => String.prefix old EmptyString
  | String c s' => String.prefix old s || occurs old s'
  end.

End notions.

(* ===================================================================== *)
(** ** A small world to run the notebook in                               *)
(* ===================================================================== *)

(** Entries: integers, with the truncated mean. *)
#[export] Instance Z_float32 : Float32 Z := {
  f32_zero := 0%Z;
  f32_mean := λ l, (foldr Z.add 0 l / Z.of_nat (length l))%Z
}.

Module Demo.

(** The separators of the tokenizer: the space, and the characters Keras
    replaces by a space before it splits (its default [filters]), which are
    tab, newline and the punctuation characters other than the apostrophe. *)
Definition is_filter (c : ascii) : bool :=
  let n := nat_of_ascii c in
  bool_decide (n = 9 ∨ n = 10 ∨ n = 32 ∨ 33 ≤ n ≤ 38 ∨ 40 ≤ n ≤ 47 ∨
               58 ≤ n ≤ 64 ∨ 91 ≤ n ≤ 96 ∨ 123 ≤ n ≤ 126).

Definition lower_ascii (c : ascii) : ascii :=
  let n := nat_of_ascii c in
  if bool_decide (65 ≤ n ≤ 90) then ascii_of_nat (n + 32) else c.

(** Splitting at separators, dropping empty words; [cur] is the word
    being read, last character first. *)
Fixpoint split_words (cur : list ascii) (s : string) : list string :=
  match s with
  | EmptyString =>
      match cur with
      | [] => []
      | _ => [String.string_of_list_ascii (rev cur)]
      end
  | String c s' =>
      if is_filter c then
        match cur with
        | [] => split_words [] s'
        | _ => String.string_of_list_ascii (rev cur) :: split_words [] s'
        end
      else split_words (c :: cur) s'
  end.

Definition word_sequence (text : string) (lower : bool) : list string :=
  let text :=
    if lower then String.string_of_list_ascii (lower_ascii <$> String.list_ascii_of_string text)
    else text in
  split_words [] text.

(** The part of a path before its last slash, when it has one. *)
Fixpoint before_last_slash (p : string) : option string :=
  match p with
  | EmptyString => None
  | String c p' =>
      match before_last_slash p' with
      | Some d => Some (String c d)
      | None => if bool_decide (c = "/"%char) then Some EmptyString else None
      end
  end.

Definition dirname (p : string) : string := default EmptyString (before_last_slash p).

#[export] Instance os : OS := {
  os_listdir := λ directory, Ok ["0_9.txt"; "1_7.txt"];
  os_path_join := λ a b, a +:+ "/" +:+ b;
  os_path_dirname := dirname;
  open_read := λ path, Ok ("A fine film.<br /><br />Seen at " +:+ path)
}.

#[export] Instance random : Random := {
  random_shuffle := λ k l, reverse l;
  random_shuffle_perm := λ k l, reverse_Permutation l
}.

(** The weights count the passes made over the training data. *)
#[export] Instance keras : Keras Z := {
  keras_utils_get_file := λ fname origin extract,
    Ok ("/root/.keras/datasets/" +:+ fname);
  text_to_word_sequence := word_sequence;
  weights := nat;
  keras_build := λ ls x y, Ok 0;
  keras_train_epoch := λ w x y validation_data batch_size, S w
}.

(** Three layers of two numbers for every token. *)
#[export] Instance allennlp : AllenNLP Z := {
  elmo_embedder := unit;
  ElmoEmbedder := λ cuda_device, Ok ();
  embed_sentences := λ elmo sentences,
    Generator
      ((λ tokens : list string,
          NDArray [3; length tokens; 2]
            ((λ i, Z.of_nat i) <$> seq 0 (3 * length tokens * 2)))
         <$> sentences)
      None
}.


(** An embedder whose generator fails when it is asked for more than it
    has yielded for the sentences. *)
Definition interrupted : AllenNLP Z := {|
  elmo_embedder := unit;
  ElmoEmbedder := λ cuda_device, Ok ();
  embed_sentences := λ elmo sentences,
    Generator
      ((λ tokens : list string,
          NDArray [3; length tokens; 2]
            ((λ i, Z.of_nat i) <$> seq 0 (3 * length tokens * 2)))
         <$> sentences)
      (Some (LibraryError "CUDA out of memory"))
|}.

(** An embedder that yields one array more than it was given sentences. *)
Definition talkative : AllenNLP Z := {|
  elmo_embedder := unit;
  ElmoEmbedder := λ cuda_device, Ok ();
  embed_sentences := λ elmo sentences,
    Generator
      (((λ tokens : list string,
           NDArray [3; length tokens; 2]
             ((λ i, Z.of_nat i) <$> seq 0 (3 * length tokens * 2)))
          <$> sentences) ++ [NDArray [3; 0; 2] []])
      None
|}.

(** Files without markup. *)
Definition plain : OS := {|
  os_listdir := λ directory, Ok ["0_9.txt"];
  os_path_join := λ a b, a +:+ "/" +:+ b;
  os_path_dirname := dirname;
  open_read := λ path, Ok "A fine film, <b>really</b>"
|}.

(** The names the kernel ends with when the notebook is run in the small
    world. *)
Definition globals_at_end : globals :=
  Eval vm_compute in
    match notebook (F:=Z) with
    | Ok g => g
    | Raise _ =>
        {| train_data := []; test_data := []; objects := [];
           train_x := NDArray [] []; train_y := [];
           test_x := NDArray [] []; test_y := [];
           history := {| epoch := []; trained := 0 |} |}
    end.

End Demo.

(* ===================================================================== *)
(** * Properties                                                          *)
(* ===================================================================== *)

Example pad_small :
  pad_x_matrix [NDArray [1; 2] [5; 7]%Z] =
  Ok (NDArray [1; 100; 2] ([5; 7]%Z ++ replicate 198 0%Z)).
Proof. vm_compute. reflexivity. Qed.

Example pad_empty_list : pad_x_matrix (F:=Z) [] = Ok (NDArray [0] []).
Proof. reflexivity. Qed.

Example pad_zero_rows :
  pad_x_matrix [NDArray [0; 2] ([] : list Z)] =
  Ok (NDArray [1; 100; 2] (replicate 200 0%Z)).
Proof. vm_compute. reflexivity. Qed.

Example pad_empty_1d :
  pad_x_matrix [NDArray [0] ([] : list Z)] = Raise IndexError.
Proof. vm_compute. reflexivity. Qed.

(* ===================================================================== *)
(** ** The error monad and loops                                          *)
(* ===================================================================== *)


Lemma for_each_app {A S : Type} (body : S → A → except S) (s : S) (l1 l2 : list A) :
  for_each body s (l1 ++ l2) = for_each body s l1 ≫= λ s', for_each body s' l2.
Proof.
  revert s. induction l1 as [|x l1 IH]; intros s; simpl; [done|].
  destruct (body s x) as [e|s']; simpl; [done|]. apply IH.
Qed.

(** A loop stops at the first round that raises, with that exception. *)
Lemma for_each_raise {A S : Type} (body : S → A → except S) (s s' : S)
    (l1 l2 : list A) (x : A) (e : exn) :
  for_each body s l1 = Ok s' → body s' x = Raise e →
  for_each body s (l1 ++ x :: l2) = Raise e.
Proof.
  intros H1 H2. rewrite for_each_app, H1. simpl. by rewrite H2.
Qed.

(* ===================================================================== *)
(** ** Padding                                                            *)
(* ===================================================================== *)

Section padding_facts.
Context {F : Type} {num : Float32 F}.

Lemma pad_step_2d (x : list (ndarray F)) (i n c : nat) (a : ndarray F) :
  x !! i = Some a → shape a = [n; c] →
  pad_step x i = Ok (<[i := padded a]> x).
Proof.
  intros Hi Hs. unfold pad_step, list_get, shape_at, list_get, padded.
  rewrite Hi. simpl. rewrite Hs. simpl.
  destruct (decide (max_tokens - Z.of_nat n > 0)%Z) as [Hlt|Hge].
  - rewrite decide_True by lia. simpl.
    unfold np_append. rewrite Hs. simpl. rewrite decide_True by done.
    simpl. do 3 f_equal.
    + f_equal. unfold max_tokens in *. lia.
    + do 2 f_equal. unfold max_tokens in *. lia.
  - rewrite decide_False by lia. f_equal. symmetry. by apply list_insert_id.
Qed.

Lemma pad_loop_2d (done todo rest : list (ndarray F)) :
  Forall (λ a, ∃ n c, shape a = [n; c]) todo →
  for_each pad_step (done ++ todo ++ rest) (seq (length done) (length todo))
  = Ok (done ++ (padded <$> todo) ++ rest).
Proof.
  revert done. induction todo as [|a todo IH]; intros done Hall; simpl.
  - done.
  - apply Forall_cons in Hall as [(n & c & Hs) Hall].
    erewrite pad_step_2d; [| by apply list_lookup_middle | done]. simpl.
    assert (<[length done := padded a]> (done ++ a :: todo ++ rest)
            = (done ++ [padded a]) ++ todo ++ rest) as ->.
    { rewrite insert_app_r_alt by lia. rewrite Nat.sub_diag. simpl.
      by rewrite <- (assoc_L (++)). }
    specialize (IH (done ++ [padded a]) Hall).
    rewrite length_app in IH. simpl in IH.
    replace (length done + 1) with (S (length done)) in IH by lia.
    rewrite IH. by rewrite <- (assoc_L (++)).
Qed.

Lemma pad_x_matrix_2d (x : list (ndarray F)) :
  Forall (λ a, ∃ n c, shape a = [n; c]) x →
  pad_x_matrix x = np_array (padded <$> x).
Proof.
  intros Hall. unfold pad_x_matrix.
  pose proof (pad_loop_2d [] x [] Hall) as H. simpl in H.
  rewrite !app_nil_r in H. by rewrite H.
Qed.

(** A one-dimensional array shorter than [max_tokens] has no
    [shape[1]]. *)
Lemma pad_step_1d (x : list (ndarray F)) (i k : nat) (a : ndarray F) :
  x !! i = Some a → shape a = [k] → (Z.of_nat k < max_tokens)%Z →
  pad_step x i = Raise IndexError.
Proof.
  intros Hi Hs Hk. unfold pad_step, list_get, shape_at, list_get.
  rewrite Hi. simpl. rewrite Hs. simpl.
  by rewrite decide_True by lia.
Qed.

Lemma padded_rows (a : ndarray F) (n d : nat) :
  shape a = [n; d] → (Z.of_nat n ≤ max_tokens)%Z →
  shape (padded a) = [Z.to_nat max_tokens; d] ∧
  data (padded a) = data a ++ replicate ((Z.to_nat max_tokens - n) * d) f32_zero.
Proof.
  intros Hs Hn. unfold padded. rewrite Hs.
  destruct (decide (Z.of_nat n < max_tokens)%Z) as [Hlt|Hge]; simpl; [done|].
  assert (n = Z.to_nat max_tokens) as Hn' by lia.
  rewrite Hs. split; [by rewrite Hn'|].
  rewrite <- Hn', Nat.sub_diag. simpl. by rewrite app_nil_r.
Qed.

(** Stacking arrays of one shape. *)
Lemma np_array_same_shape (xs : list (ndarray F)) (s : list nat) :
  xs ≠ [] → Forall (λ a, shape a = s) xs →
  np_array xs = Ok (NDArray (length xs :: s) (concat (data <$> xs))).
Proof.
  intros Hne Hall. destruct xs as [|a rest]; [done|].
  apply Forall_cons in Hall as [Ha Hrest]. unfold np_array.
  assert (forallb (λ b, bool_decide (shape b = shape a)) rest = true) as ->.
  { apply forallb_forall. intros b Hb. apply bool_decide_eq_true.
    rewrite Ha. rewrite Forall_forall in Hrest. apply Hrest.
    by apply list_elem_of_In. }
  by rewrite Ha.
Qed.
End padding_facts.

(** Entry [o] of block [i] in a concatenation of blocks of one length. *)
Lemma lookup_concat_uniform {A : Type} (k : nat) (bs : list (list A))
    (i o : nat) (b : list A) :
  Forall (λ b, length b = k) bs → bs !! i = Some b → o < k →
  concat bs !! (i * k + o) = b !! o.
Proof.
  revert i. induction bs as [|b0 bs IH]; intros i Hall Hi Ho; [done|].
  apply Forall_cons in Hall as [Hb0 Hall]. destruct i as [|i]; simpl in *.
  - injection Hi as ->. apply lookup_app_l. lia.
  - rewrite lookup_app_r by lia. rewrite <- (IH i Hall Hi Ho). f_equal. lia.
Qed.

Lemma length_concat_uniform {A : Type} (k : nat) (bs : list (list A)) :
  Forall (λ b, length b = k) bs → length (concat bs) = length bs * k.
Proof.
  induction 1 as [|b bs Hb _ IH]; simpl; [done|].
  rewrite length_app. lia.
Qed.

Section padding_claims.
Context {F : Type} {num : Float32 F}.

Lemma offset_2d (n d r j : nat) :
  r < n → j < d → offset [n; d] [r; j] = Some (r * d + j).
Proof.
  intros Hr Hj. simpl. rewrite !decide_True by done. simpl. f_equal. lia.
Qed.

Lemma offset_3d (k n d i r j : nat) :
  i < k → r < n → j < d → offset [k; n; d] [i; r; j] = Some (i * (n * d) + (r * d + j)).
Proof.
  intros Hi Hr Hj. simpl. rewrite !decide_True by done. simpl. f_equal. lia.
Qed.

(** C1, as amended: for every non-empty list [x_matrix] of arrays of
    shape [(n, d)] with [1 ≤ n ≤ max_tokens], [pad_x_matrix] returns one
    array of shape [(len(x_matrix), max_tokens, d)]; in it, row [r] of
    sequence [i] is row [r] of the original sequence when [r < n] and a row
    of zeros from [n] up to [max_tokens]. *)
Theorem pad_x_matrix_shape_and_entries (x_matrix : list (ndarray F)) (d : nat) :
  x_matrix ≠ [] →
  Forall (λ a, ∃ n, shape a = [n; d] ∧ 1 ≤ n ∧ (Z.of_nat n ≤ max_tokens)%Z ∧
                    wf_ndarray a) x_matrix →
  ∃ m, pad_x_matrix x_matrix = Ok m ∧
       shape m = [length x_matrix; Z.to_nat max_tokens; d] ∧
       wf_ndarray m ∧
       ∀ i a n, x_matrix !! i = Some a → shape a = [n; d] →
         ∀ r j, r < Z.to_nat max_tokens → j < d →
           nd_get m [i; r; j] =
           if decide (r < n) then nd_get a [r; j] else Some f32_zero.
Proof.
  intros Hne Hall.
  set (M := Z.to_nat max_tokens).
  assert (Forall (λ a, ∃ n c, shape a = [n; c]) x_matrix) as H2d.
  { eapply Forall_impl; [exact Hall|]. intros a (n & Hs & _). eauto. }
  assert (Forall (λ a, shape a = [M; d]) (padded <$> x_matrix)) as Hshape.
  { apply Forall_fmap. eapply Forall_impl; [exact Hall|].
    intros a (n & Hs & _ & Hn & _). cbn beta. by apply (padded_rows a n d). }
  assert (Forall (λ b, length b = M * d) (data <$> (padded <$> x_matrix))) as Hlen.
  { rewrite <- list_fmap_compose. apply Forall_fmap.
    eapply Forall_impl; [exact Hall|].
    intros a (n & Hs & _ & Hn & Hwf). cbn beta. unfold compose.
    destruct (padded_rows a n d Hs Hn) as [_ ->].
    rewrite length_app, length_replicate. unfold wf_ndarray in Hwf.
    rewrite Hwf, Hs. unfold size_of. cbn [foldr].
    rewrite Nat.mul_1_r, <- Nat.mul_add_distr_r. f_equal. subst M. lia. }
  rewrite (pad_x_matrix_2d _ H2d).
  rewrite (np_array_same_shape _ [M; d]); [| by destruct x_matrix | done].
  eexists. split; [done|]. rewrite length_fmap. split; [done|]. split.
  { unfold wf_ndarray, size_of. cbn [shape data foldr].
    rewrite (length_concat_uniform _ _ Hlen), !length_fmap. lia. }
  intros i a n Hi Hs r j Hr Hj.
  rewrite Forall_lookup in Hall. destruct (Hall i a Hi) as (n' & Hs' & _ & Hn & Hwf).
  assert (n' = n) as -> by congruence.
  unfold nd_get at 1. cbn [shape data].
  rewrite offset_3d; [| by eapply lookup_lt_Some | done | done]. cbn [mbind option_bind].
  rewrite (lookup_concat_uniform (M * d) _ i (r * d + j) (data (padded a)) Hlen);
    [| by rewrite !list_lookup_fmap, Hi | nia].
  destruct (padded_rows a n d Hs Hn) as [_ ->].
  unfold wf_ndarray, size_of in Hwf. rewrite Hs in Hwf. cbn [foldr] in Hwf.
  destruct (decide (r < n)) as [Hlt|Hge].
  - unfold nd_get. rewrite Hs, offset_2d by done. cbn [mbind option_bind].
    apply lookup_app_l. nia.
  - assert (length (data a) = n * d) as Hlen_a by lia.
    assert ((r - n + 1) * d ≤ (M - n) * d) by (apply Nat.mul_le_mono_r; lia).
    assert (n * d ≤ r * d) by (apply Nat.mul_le_mono_r; lia).
    assert ((r - n + 1) * d = r * d - n * d + d) by nia.
    rewrite lookup_app_r by lia. apply lookup_replicate_2. lia.
Qed.
End padding_claims.

Section padding_errors.
Context {F : Type} {num : Float32 F}.

(** C9, as amended: [pad_x_matrix] raises IndexError, at
    [sentence_vec.shape[1]], when some element of [x_matrix] is a
    one-dimensional array with fewer than [max_tokens] entries (the array
    numpy makes of an empty list has shape [(0,)]) and the elements before
    it are two-dimensional. *)
Theorem pad_x_matrix_index_error (before after : list (ndarray F))
    (a : ndarray F) (k : nat) :
  Forall (λ b, ∃ n c, shape b = [n; c]) before →
  shape a = [k] → (Z.of_nat k < max_tokens)%Z →
  pad_x_matrix (before ++ a :: after) = Raise IndexError.
Proof.
  intros Hbefore Hs Hk. unfold pad_x_matrix.
  rewrite length_app. simpl length. rewrite seq_app. simpl seq.
  erewrite for_each_raise; [done | |].
  - apply (pad_loop_2d [] before (a :: after) Hbefore).
  - simpl. eapply pad_step_1d; [|done..].
    replace (length before) with (length (padded <$> before))
      by apply length_fmap.
    by apply list_lookup_middle.
Qed.

(** When every element has its two dimensions, padding raises no
    IndexError: what is left to fail is the stacking of arrays whose shapes
    differ. *)
Lemma pad_x_matrix_2d_no_index_error (x_matrix : list (ndarray F)) :
  Forall (λ b, ∃ n c, shape b = [n; c]) x_matrix →
  pad_x_matrix x_matrix ≠ Raise IndexError.
Proof.
  intros H2d. rewrite (pad_x_matrix_2d _ H2d). unfold np_array.
  destruct (padded <$> x_matrix) as [|a rest]; [done|].
  by destruct (forallb _ rest).
Qed.

(** An array without rows that has its column dimension is padded like
    any other. *)
Lemma pad_x_matrix_zero_rows (d : nat) :
  pad_x_matrix [NDArray [0; d] ([] : list F)]
  = Ok (NDArray [1; Z.to_nat max_tokens; d]
          (replicate (Z.to_nat max_tokens * d) f32_zero)).
Proof.
  rewrite pad_x_matrix_2d by (repeat constructor; eauto).
  unfold np_array, padded. cbn [fmap list_fmap shape forallb length].
  rewrite decide_True by (unfold max_tokens; lia).
  cbn [shape data concat fmap list_fmap app].
  by rewrite Nat.sub_0_r, app_nil_r.
Qed.
End padding_errors.

(** The hypotheses of C1, as amended, at a sequence of one row. *)
Lemma pad_x_matrix_shape_and_entries_witness :
  ∃ m, pad_x_matrix [NDArray [1; 2] [5; 7]%Z] = Ok m ∧
       shape m = [1; Z.to_nat max_tokens; 2] ∧
       wf_ndarray m ∧
       ∀ i a n, [NDArray [1; 2] [5; 7]%Z] !! i = Some a → shape a = [n; 2] →
         ∀ r j, r < Z.to_nat max_tokens → j < 2 →
           nd_get m [i; r; j] =
           if decide (r < n) then nd_get a [r; j] else Some f32_zero.
Proof.
  apply (pad_x_matrix_shape_and_entries [NDArray [1; 2] [5; 7]%Z] 2).
  - done.
  - repeat constructor. exists 1. repeat split; [lia | unfold max_tokens; lia].
Defined.

(** C1 as stated fails at the empty list, which meets its condition on the
    sequences: the result has shape [(0,)], not [(0, max_tokens, d)]. *)
Lemma pad_x_matrix_empty_list :
  Forall (λ a : ndarray Z, ∃ n d, shape a = [n; d] ∧ 1 ≤ n ∧
                                  (Z.of_nat n ≤ max_tokens)%Z) [] ∧
  pad_x_matrix (F:=Z) [] = Ok (NDArray [0] []) ∧
  ¬ ∃ (d : nat) (m : ndarray Z),
      pad_x_matrix [] = Ok m ∧
      shape m = [length ([] : list (ndarray Z)); Z.to_nat max_tokens; d].
Proof.
  split; [constructor|]. split; [done|].
  intros (d & m & Hm & Hs). vm_compute in Hm. injection Hm as <-. discriminate Hs.
Qed.

(** The hypotheses of C9, as amended, at the array of an empty list. *)
Lemma pad_x_matrix_index_error_witness :
  pad_x_matrix ([NDArray [3; 2] [1; 2; 3; 4; 5; 6]%Z] ++ NDArray [0] [] :: [])
  = Raise IndexError.
Proof.
  apply (pad_x_matrix_index_error [NDArray [3; 2] [1; 2; 3; 4; 5; 6]%Z] []
           (NDArray [0] []) 0).
  - repeat constructor. by exists 3, 2.
  - done.
  - unfold max_tokens. lia.
Defined.

(** C9 as stated fails at an array with zero rows and two columns: no
    exception is raised, the array is padded with [max_tokens] rows of
    zeros. *)
Lemma pad_x_matrix_zero_rows_no_error :
  shape (NDArray [0; 2] ([] : list Z)) !! 0 = Some 0 ∧
  wf_ndarray (NDArray [0; 2] ([] : list Z)) ∧
  pad_x_matrix [NDArray [0; 2] ([] : list Z)]
  = Ok (NDArray [1; 100; 2] (replicate 200 0%Z)) ∧
  pad_x_matrix [NDArray [0; 2] ([] : list Z)] ≠ Raise IndexError.
Proof.
  split; [done|]. split; [done|]. split; [by vm_compute|]. by vm_compute.
Qed.

(* ===================================================================== *)
(** ** The classifier                                                     *)
(* ===================================================================== *)

(** C2, as amended: the model construction stacks exactly four layers
    before compilation: a convolution, a global max pooling and two dense
    layers; [compile] adds none. *)
Theorem model_has_four_layers :
  layers model_layers =
    [Conv1D 250 3 "same"; GlobalMaxPooling1D; Dense 250 "relu"; Dense 1 "sigmoid"] ∧
  length (layers model_layers) = 4 ∧
  layers model = layers model_layers.
Proof. done. Qed.

(** C2 as stated fails: the layers stacked are not five. *)
Lemma model_not_five_layers :
  length (layers model_layers) ≠ 5 ∧ length (layers model) ≠ 5.
Proof. split; discriminate. Qed.

Section training_facts.
Context {F : Type} {ker : Keras F}.

(** The loop of [fit] runs every epoch of [range(epochs)], one pass over
    the training data each. *)
Lemma fit_loop_epochs (w : weights) (x : ndarray F) (y : list value)
    (v : ndarray F * list value) (epochs batch_size : nat) :
  epoch (fit_loop w x y v epochs batch_size) = seq 0 epochs ∧
  trained (fit_loop w x y v epochs batch_size) =
    Nat.iter epochs (λ w, keras_train_epoch w x y v batch_size) w.
Proof.
  unfold fit_loop. induction epochs as [|n [IH1 IH2]]; [done|].
  rewrite seq_S, foldl_app. simpl. by rewrite IH1, IH2.
Qed.

(** C4: [model.fit] is called with [epochs=10]: whatever the data, either
    [fit] refuses them before the first epoch, or training makes exactly
    ten passes over the training data, epochs 0 to 9. *)
Theorem fit_runs_ten_epochs (train_x : ndarray F) (train_y : list value)
    (test_x : ndarray F) (test_y : list value) :
  match keras_build (layers model) train_x train_y with
  | Raise e => cell_6 train_x train_y test_x test_y = Raise e
  | Ok w =>
      ∃ hist, cell_6 train_x train_y test_x test_y = Ok hist ∧
              epoch hist = seq 0 10 ∧ length (epoch hist) = 10 ∧
              trained hist =
                Nat.iter 10
                  (λ w, keras_train_epoch w train_x train_y (test_x, test_y) 32) w
  end.
Proof.
  unfold cell_6, fit. cbn [compiled model compile].
  destruct (keras_build _ _ _) as [e|w]; [done|].
  eexists. split; [done|].
  destruct (fit_loop_epochs w train_x train_y (test_x, test_y) 10 32) as [-> ->].
  done.
Qed.
End training_facts.

(* ===================================================================== *)
(** ** Tokenization                                                       *)
(* ===================================================================== *)

Section tokenize_facts.
Context {F : Type} {ker : Keras F}.

Lemma tokenized_text (max_tokens : Z) (d : dict) :
  tokenized max_tokens d !! "text" = d !! "text".
Proof.
  unfold tokenized. destruct (d !! "text") as [[]|] eqn:E; try done.
  by rewrite lookup_insert_ne.
Qed.

Lemma tokenized_idemp (max_tokens : Z) (d : dict) :
  tokenized max_tokens (tokenized max_tokens d) = tokenized max_tokens d.
Proof.
  unfold tokenized at 1. rewrite tokenized_text. unfold tokenized.
  destruct (d !! "text") as [[]|] eqn:E; try done.
  by rewrite insert_insert_eq.
Qed.

Lemma tokenize_document_ok (max_tokens : Z) (h : heap) (l : loc) (d : dict)
    (s : string) :
  h !! l = Some d → d !! "text" = Some (VStr s) →
  tokenize_document max_tokens h l = Ok (<[l := tokenized max_tokens d]> h).
Proof.
  intros Hl Ht. unfold tokenize_document, deref, dict_get, tokenized.
  rewrite Hl. simpl. rewrite Ht. simpl.
  rewrite list_lookup_insert_eq by (by eapply lookup_lt_Some). simpl.
  rewrite lookup_insert_eq. simpl.
  by rewrite list_insert_insert_eq, insert_insert_eq.
Qed.

Lemma tokenize_text_ok (max_tokens : Z) (documents : list loc) (h : heap) :
  (∀ l, l ∈ documents → ∃ d s, h !! l = Some d ∧ d !! "text" = Some (VStr s)) →
  ∃ h', tokenize_text documents max_tokens h = Ok h' ∧
        ∀ l, h' !! l =
             (λ d, if bool_decide (l ∈ documents) then tokenized max_tokens d else d)
               <$> h !! l.
Proof.
  revert h. induction documents as [|l0 documents IH]; intros h Hdocs.
  - exists h. split; [done|]. intros l. by destruct (h !! l).
  - destruct (Hdocs l0) as (d0 & s0 & Hl0 & Ht0); [apply list_elem_of_here|].
    unfold tokenize_text. simpl.
    rewrite (tokenize_document_ok _ _ _ _ _ Hl0 Ht0). simpl.
    destruct (IH (<[l0 := tokenized max_tokens d0]> h)) as (h' & Hrun & Hh').
    { intros l Hl. destruct (decide (l = l0)) as [->|Hne].
      - exists (tokenized max_tokens d0), s0.
        rewrite list_lookup_insert_eq by (by eapply lookup_lt_Some).
        by rewrite tokenized_text.
      - rewrite list_lookup_insert_ne by done. apply Hdocs.
        by apply list_elem_of_further. }
    exists h'. split; [exact Hrun|]. intros l. rewrite Hh'.
    destruct (decide (l = l0)) as [->|Hne].
    + rewrite list_lookup_insert_eq by (by eapply lookup_lt_Some).
      rewrite Hl0. simpl. rewrite (bool_decide_eq_true_2 (l0 ∈ l0 :: documents))
        by apply list_elem_of_here.
      destruct (bool_decide (l0 ∈ documents)); [by rewrite tokenized_idemp | done].
    + rewrite list_lookup_insert_ne by done.
      assert (l ∈ l0 :: documents ↔ l ∈ documents) as Hiff
        by (rewrite elem_of_cons; split; [intros [?|?]; [congruence|done] | by right]).
      by rewrite (bool_decide_ext _ _ Hiff).
Qed.

(** C7: for [max_tokens ≥ 0] and documents that have a text,
    [tokenize_text] returns; afterwards the ['tokens'] of each document
    are the first [max_tokens] words (or all of them, when there are
    fewer) of the word sequence of its ['text'], so at most [max_tokens];
    its other fields, ['text'] and ['label'] among them, are as before, and
    so is every object that is not in the list. *)
Theorem tokenize_text_tokens_prefix (h : heap) (documents : list loc)
    (max_tokens : Z) :
  (0 ≤ max_tokens)%Z →
  (∀ l, l ∈ documents → ∃ d s, h !! l = Some d ∧ d !! "text" = Some (VStr s)) →
  ∃ h', tokenize_text documents max_tokens h = Ok h' ∧
    (∀ l, l ∈ documents →
       ∃ d d' s, h !! l = Some d ∧ d !! "text" = Some (VStr s) ∧
         h' !! l = Some d' ∧
         d' !! "tokens" =
           Some (VList (take (Z.to_nat max_tokens) (text_to_word_sequence s false))) ∧
         length (take (Z.to_nat max_tokens) (text_to_word_sequence s false))
           ≤ Z.to_nat max_tokens ∧
         d' !! "text" = d !! "text" ∧
         d' !! "label" = d !! "label" ∧
         ∀ key, key ≠ "tokens" → d' !! key = d !! key) ∧
    (∀ l, l ∉ documents → h' !! l = h !! l).
Proof.
  intros Hmax Hdocs.
  destruct (tokenize_text_ok max_tokens documents h Hdocs) as (h' & Hrun & Hh').
  exists h'. split; [exact Hrun|]. split.
  - intros l Hl. destruct (Hdocs l Hl) as (d & s & Hd & Ht).
    exists d, (tokenized max_tokens d), s.
    split; [done|]. split; [done|]. split.
    { by rewrite Hh', Hd, bool_decide_eq_true_2. }
    assert (tokenized max_tokens d =
            <["tokens" := VList (take (Z.to_nat max_tokens)
                                   (text_to_word_sequence s false))]> d) as ->.
    { unfold tokenized, py_slice0. by rewrite Ht, decide_True. }
    split; [by rewrite lookup_insert_eq|].
    split; [rewrite length_take; lia|].
    split; [by rewrite lookup_insert_ne|].
    split; [by rewrite lookup_insert_ne|].
    intros key Hkey. by rewrite lookup_insert_ne.
  - intros l Hl. rewrite Hh', bool_decide_eq_false_2 by done.
    by destruct (h !! l).
Qed.
End tokenize_facts.

(** The hypotheses of C7 at a list that names one document twice. *)
Lemma tokenize_text_tokens_prefix_witness :
  let h : heap :=
    [ {[ "text" := VStr "A fine film, really"; "label" := VInt 1 ]} ] in
  ∃ h' : heap, tokenize_text (ker:=Demo.keras) [0; 0] 2 h = Ok h' ∧
    (∀ l : loc, l ∈ [0; 0] →
       ∃ (d d' : dict) (s : string), h !! l = Some d ∧ d !! "text" = Some (VStr s) ∧
         h' !! l = Some d' ∧
         d' !! "tokens" =
           Some (VList (take (Z.to_nat 2)
                          (text_to_word_sequence (Keras:=Demo.keras) s false))) ∧
         length (take (Z.to_nat 2)
                   (text_to_word_sequence (Keras:=Demo.keras) s false)) ≤ Z.to_nat 2 ∧
         d' !! "text" = d !! "text" ∧
         d' !! "label" = d !! "label" ∧
         ∀ key, key ≠ "tokens" → d' !! key = d !! key) ∧
    (∀ l : loc, l ∉ [0; 0] → h' !! l = h !! l).
Proof.
  intros h.
  apply (tokenize_text_tokens_prefix (ker:=Demo.keras) h [0; 0] 2).
  - lia.
  - intros l Hl. assert (l = 0) as ->.
    { by repeat (apply elem_of_cons in Hl as [->|Hl]; [done|]); apply elem_of_nil in Hl. }
    eexists _, "A fine film, really". split; [reflexivity|]. by vm_compute.
Defined.

Example tokenize_text_twice :
  (tokenize_text (ker:=Demo.keras) [0; 0] 2
     [ {[ "text" := VStr "A fine film, really"; "label" := VInt 1 ]} ]
   ≫= λ h : heap, Ok ((λ d : dict, d !! "tokens") <$> h))
  = Ok [Some (VList ["A"; "fine"])].
Proof. by vm_compute. Qed.

(* ===================================================================== *)
(** ** The ELMo embeddings                                                *)
(* ===================================================================== *)

Lemma Forall_exists_Forall2 {A B : Type} (R : A → B → Prop) (l : list A) :
  Forall (λ x, ∃ y, R x y) l → ∃ k, Forall2 R l k.
Proof.
  induction 1 as [|x l [y Hy] _ [k Hk]].
  - by exists [].
  - exists (y :: k). by constructor.
Qed.

Section embedding_facts.
Context {F : Type} {num : Float32 F} {nlp : AllenNLP F}.


(** The loop from document [idx] on: it takes the items one by one until
    they run out or [max_sentences] documents are done. *)
Lemma embed_loop_spec (h : heap) (documents : list loc)
    (max_sentences num_sentences : Z) :
  num_sentences ≠ 0%Z →
  ∀ (items avgs : list (ndarray F)) (rest_docs : list loc)
    (rest_labels : list value) (embs : list (ndarray F)) (labs : list value)
    (idx : nat),
    Forall2 (λ e a, np_average e = Ok a) items avgs →
    Forall2 (λ l v, ∃ d : dict, h !! l = Some d ∧ d !! "label" = Some v)
      rest_docs rest_labels →
    drop idx documents = rest_docs →
    length items = length rest_docs →
    ((max_sentences > 0)%Z → (Z.of_nat idx < max_sentences)%Z) →
    let count :=
      if decide (max_sentences > 0)%Z
      then Z.to_nat (max_sentences - Z.of_nat idx) else length items in
    embed_loop h documents max_sentences num_sentences items None
      (embs, labs, idx)
    = Ok (embs ++ take count avgs, labs ++ take count rest_labels).
Proof.
  intros Hns items.
  induction items as [|e items IH];
    intros avgs rest_docs rest_labels embs labs idx Havg Hlab Hdrop Hlen Hidx count.
  - apply Forall2_nil_inv_l in Havg as ->.
    destruct rest_docs; [|done].
    apply Forall2_nil_inv_l in Hlab as ->.
    simpl. by rewrite !take_nil, !app_nil_r.
  - apply Forall2_cons_inv_l in Havg as (a & avgs' & Ha & Havg & ->).
    destruct rest_docs as [|l rest_docs]; [done|].
    apply Forall2_cons_inv_l in Hlab as (v & labels' & (d & Hd & Hv) & Hlab & ->).
    assert (documents !! idx = Some l) as Hl.
    { rewrite <- (Nat.add_0_r idx), <- lookup_drop. by rewrite Hdrop. }
    assert (drop (idx + 1) documents = rest_docs) as Hdrop'.
    { rewrite <- drop_drop. by rewrite Hdrop. }
    cbn [embed_loop]. unfold list_get, deref, dict_get.
    rewrite Hl. simpl. rewrite Hd. simpl. rewrite Ha. simpl. rewrite Hv. simpl.
    rewrite decide_False by done.
    destruct (decide (max_sentences > 0 ∧ Z.of_nat (idx + 1) >= max_sentences)%Z)
      as [[Hpos Hge]|Hgo].
    + subst count. rewrite decide_True by done.
      by replace (Z.to_nat (max_sentences - Z.of_nat idx)) with 1 by lia.
    + rewrite (IH avgs' rest_docs labels'); [| done | done | done | | lia].
      2: { simpl in Hlen. lia. }
      subst count. rewrite <- !(assoc_L (++)). simpl.
      destruct (decide (max_sentences > 0)%Z) as [Hpos|Hneg].
      * replace (Z.to_nat (max_sentences - Z.of_nat idx))
          with (S (Z.to_nat (max_sentences - Z.of_nat (idx + 1)))) by lia.
        done.
      * done.
Qed.

End embedding_facts.



Example create_elmo_embeddings_all :
  create_elmo_embeddings (nlp:=Demo.allennlp) () [0; 1] 0
    [ {[ "tokens" := VList ["A"; "fine"]; "label" := VInt 1 ]};
      {[ "tokens" := VList ["Dull"]; "label" := VInt 0 ]} ]
  = Ok ([NDArray [2; 2] [4; 5; 6; 7]%Z; NDArray [1; 2] [2; 3]%Z], [VInt 1; VInt 0]).
Proof. by vm_compute. Qed.

(* ===================================================================== *)
(** ** The documents                                                      *)
(* ===================================================================== *)

Lemma bind_Ok_inv {A B : Type} (m : except A) (f : A → except B) (b : B) :
  m ≫= f = Ok b → ∃ a, m = Ok a ∧ f a = Ok b.
Proof. destruct m as [e|a]; [done|]. intros H. by exists a. Qed.

Section dataset_facts.
Context {os : OS} {rnd : Random} {F : Type} {ker : Keras F}.

Lemma loaded_mono (data : list loc) (h h' : heap) :
  h `prefix_of` h' → loaded data h → loaded data h'.
Proof.
  intros Hpre Hdata l Hl. destruct (Hdata l Hl) as (d & Hd & Hraw).
  exists d. split; [|done]. by eapply prefix_lookup_Some.
Qed.

Lemma loaded_app (data1 data2 : list loc) (h : heap) :
  loaded data1 h → loaded data2 h → loaded (data1 ++ data2) h.
Proof.
  intros H1 H2 l Hl. apply elem_of_app in Hl as [Hl|Hl]; eauto.
Qed.

Lemma load_files_loaded (directory : string) (label : Z) (names : list string) :
  (label = 1 ∨ label = 0)%Z →
  ∀ (data data' : list loc) (h h' : heap),
    for_each (load_file directory label) (data, h) names = Ok (data', h') →
    loaded data h → h `prefix_of` h' ∧ loaded data' h'.
Proof.
  intros Hlabel. induction names as [|name names IH];
    intros data data' h h' Hrun Hdata; simpl in Hrun.
  - by injection Hrun as <- <-.
  - apply bind_Ok_inv in Hrun as ([data1 h1] & Hfile & Hrun).
    unfold load_file in Hfile.
    apply bind_Ok_inv in Hfile as (contents & Hread & Hfile).
    simpl in Hfile. injection Hfile as <- <-.
    destruct (IH _ _ _ _ Hrun) as [Hpre Hdata'].
    { apply loaded_app.
      - eapply loaded_mono; [|done]. by apply prefix_app_r.
      - intros l Hl. apply list_elem_of_singleton in Hl as ->.
        eexists. split; [by apply list_lookup_middle|].
        by exists (os_path_join directory name), contents, label. }
    split; [|done]. etrans; [|done]. by apply prefix_app_r.
Qed.

Lemma load_directory_data_loaded (directory : string) (label : Z)
    (h h' : heap) (data : list loc) :
  (label = 1 ∨ label = 0)%Z →
  load_directory_data directory label h = Ok (data, h') →
  h `prefix_of` h' ∧ loaded data h'.
Proof.
  intros Hlabel Hrun. unfold load_directory_data in Hrun.
  apply bind_Ok_inv in Hrun as (names & _ & Hrun).
  eapply load_files_loaded; [done..|]. intros l Hl. by apply elem_of_nil in Hl.
Qed.

Lemma load_dataset_loaded (directory : string) (h h' : heap) (data : list loc) :
  load_dataset directory h = Ok (data, h') →
  h `prefix_of` h' ∧ loaded data h'.
Proof.
  intros Hrun. unfold load_dataset in Hrun.
  apply bind_Ok_inv in Hrun as ([pos_data h1] & Hpos & Hrun).
  apply bind_Ok_inv in Hrun as ([neg_data h2] & Hneg & Hrun).
  injection Hrun as <- <-.
  apply load_directory_data_loaded in Hpos as [Hpre1 Hpos]; [|by left].
  apply load_directory_data_loaded in Hneg as [Hpre2 Hneg]; [|by right].
  split; [by etrans|]. apply loaded_app; [|done]. by eapply loaded_mono.
Qed.

Lemma cell_2_loaded (train_data test_data : list loc) (h : heap) :
  cell_2 = Ok (train_data, test_data, h) →
  loaded train_data h ∧ loaded test_data h.
Proof.
  intros Hrun. unfold cell_2, download_and_load_datasets in Hrun.
  apply bind_Ok_inv in Hrun as ([[train test] h'] & Hrun & Hshuffle).
  injection Hshuffle as <- <- <-.
  apply bind_Ok_inv in Hrun as (dataset & _ & Hrun).
  apply bind_Ok_inv in Hrun as ([train' h1] & Htrain & Hrun).
  apply bind_Ok_inv in Hrun as ([test' h2] & Htest & Hrun).
  injection Hrun as <- <- <-.
  apply load_dataset_loaded in Htrain as [_ Htrain].
  apply load_dataset_loaded in Htest as [Hpre Htest].
  split; intros l Hl; rewrite random_shuffle_perm in Hl.
  - by apply (loaded_mono _ _ _ Hpre Htrain).
  - by apply Htest.
Qed.
End dataset_facts.

Section document_facts.
Context {os : OS} {rnd : Random} {F : Type} {num : Float32 F}
  {ker : Keras F} {nlp : AllenNLP F}.

Lemma raw_document_text (d : dict) :
  raw_document d → ∃ s, d !! "text" = Some (VStr s).
Proof. intros (path & contents & label & _ & _ & ->). by eexists. Qed.

(** Cell 3 tokenizes every document of the two lists, once or twice to
    the same effect. *)
Lemma cell_3_tokenized (train_data test_data : list loc) (h h' : heap) :
  loaded train_data h → loaded test_data h →
  cell_3 train_data test_data h = Ok h' →
  ∀ l, l ∈ train_data ++ test_data →
    ∃ d, raw_document d ∧ h' !! l = Some (tokenized max_tokens d).
Proof.
  intros Htrain Htest Hrun. unfold cell_3 in Hrun.
  destruct (tokenize_text_ok max_tokens train_data h) as (h1 & Hrun1 & Hh1).
  { intros l Hl. destruct (Htrain l Hl) as (d & Hd & Hraw).
    destruct (raw_document_text d Hraw) as [s Hs]. eauto. }
  rewrite Hrun1 in Hrun. simpl in Hrun.
  destruct (tokenize_text_ok max_tokens test_data h1) as (h2 & Hrun2 & Hh2).
  { intros l Hl. destruct (Htest l Hl) as (d & Hd & Hraw).
    destruct (raw_document_text d Hraw) as [s Hs].
    rewrite Hh1, Hd. simpl.
    destruct (bool_decide (l ∈ train_data)); eexists _, s;
      (split; [done|]); [by rewrite tokenized_text | done]. }
  rewrite Hrun2 in Hrun. injection Hrun as <-.
  intros l Hl.
  assert (∃ d, h !! l = Some d ∧ raw_document d) as (d & Hd & Hraw).
  { apply elem_of_app in Hl as [Hl|Hl]; eauto. }
  exists d. split; [done|]. rewrite Hh2, Hh1, Hd. simpl. f_equal.
  destruct (bool_decide (l ∈ train_data)) eqn:E1;
    destruct (bool_decide (l ∈ test_data)) eqn:E2;
    [by rewrite tokenized_idemp | done | done |].
  apply bool_decide_eq_false in E1, E2.
  apply elem_of_app in Hl as [Hl|Hl]; done.
Qed.

(** C5: when the notebook has run, every document of [train_data] and
    [test_data] is a dictionary with exactly the keys ['text'], ['label']
    and ['tokens']: the text is the contents of a file with [<br />]
    replaced by a space, the label is that of the file's directory, the
    tokens are those [tokenize_text] put there. *)
Theorem documents_have_three_keys (g : globals) :
  notebook = Ok g →
  ∀ l, l ∈ train_data g ++ test_data g →
    ∃ (d : dict) (path contents : string) (label : Z),
      objects g !! l = Some d ∧
      dom d = {[ "text"; "label"; "tokens" ]} ∧
      open_read path = Ok contents ∧
      d !! "text" = Some (VStr (str_replace contents "<br />" " ")) ∧
      d !! "label" = Some (VInt label) ∧ (label = 1 ∨ label = 0)%Z ∧
      d !! "tokens" =
        Some (VList (py_slice0
                       (text_to_word_sequence (str_replace contents "<br />" " ") false)
                       max_tokens)).
Proof.
  intros Hrun l Hl. unfold notebook in Hrun.
  apply bind_Ok_inv in Hrun as ([[train test] h] & H2 & Hrun).
  apply bind_Ok_inv in Hrun as (h' & H3 & Hrun).
  apply bind_Ok_inv in Hrun as ([[[x1 y1] x2] y2] & H4 & Hrun).
  apply bind_Ok_inv in Hrun as ([[[x1' y1'] x2'] y2'] & H5 & Hrun).
  apply bind_Ok_inv in Hrun as (hist & H6 & Hrun).
  injection Hrun as <-. simpl in *.
  apply cell_2_loaded in H2 as [Htrain Htest].
  destruct (cell_3_tokenized _ _ _ _ Htrain Htest H3 l Hl) as (d & Hraw & Hd).
  destruct Hraw as (path & contents & label & Hread & Hlabel & ->).
  exists (tokenized max_tokens
            {[ "text" := VStr (str_replace contents "<br />" " ");
               "label" := VInt label ]}), path, contents, label.
  split; [done|]. unfold tokenized. rewrite lookup_insert_eq.
  split.
  { rewrite !dom_insert_L, dom_singleton_L. apply set_eq. intros k.
    rewrite !elem_of_union, !elem_of_singleton. tauto. }
  split; [done|].
  split; [by rewrite lookup_insert_ne, lookup_insert_eq|].
  split; [by rewrite !lookup_insert_ne, lookup_singleton_eq|].
  split; [done|]. by rewrite lookup_insert_eq.
Qed.
End document_facts.

(* ===================================================================== *)
(** ** The notebook as a whole                                            *)
(* ===================================================================== *)

Section notebook_facts.
Context {os : OS} {rnd : Random} {F : Type} {num : Float32 F}
  {ker : Keras F} {nlp : AllenNLP F}.

(** Operations inside the cells: a failed download, a directory that
    cannot be listed, a file that cannot be read, a document that cannot
    be tokenized, a sentence that cannot be padded each end the function
    they occur in. *)
Lemma download_raises (e : exn) :
  keras_utils_get_file "aclImdb.tar.gz"
    "http://ai.stanford.edu/~amaas/data/sentiment/aclImdb_v1.tar.gz" true
  = Raise e →
  (∀ h, download_and_load_datasets h = Raise e) ∧ cell_2 = Raise e.
Proof.
  intros H. unfold cell_2, download_and_load_datasets. by rewrite H.
Qed.



Lemma tokenize_document_raises (documents1 documents2 : list loc)
    (document : loc) (max_tokens : Z) (h h1 : heap) (e : exn) :
  tokenize_text documents1 max_tokens h = Ok h1 →
  tokenize_document max_tokens h1 document = Raise e →
  tokenize_text (documents1 ++ document :: documents2) max_tokens h = Raise e.
Proof. intros H1 H2. by eapply for_each_raise. Qed.

End notebook_facts.

(* ===================================================================== *)
(** * Further properties of the code                                      *)
(* ===================================================================== *)

(** ** Loading the dataset *)

Section loading_results.
Context {os : OS} {rnd : Random} {F : Type} {ker : Keras F}.

Lemma load_files_result (directory : string) (label : Z)
    (names contents : list string) :
  Forall2 (λ name c, open_read (os_path_join directory name) = Ok c) names contents →
  ∀ (data : list loc) (h : heap),
    for_each (load_file directory label) (data, h) names
    = Ok (data ++ seq (length h) (length names),
          h ++ ((λ c, {[ "text" := VStr (str_replace c "<br />" " ");
                         "label" := VInt label ]} : dict) <$> contents)).
Proof.
  induction 1 as [|name c names contents Hread _ IH]; intros data h.
  - simpl. by rewrite !app_nil_r.
  - assert (load_file directory label (data, h) name
            = Ok (data ++ [length h],
                  h ++ [{[ "text" := VStr (str_replace c "<br />" " ");
                           "label" := VInt label ]}])) as Hfile.
    { unfold load_file. by rewrite Hread. }
    cbn [for_each]. rewrite Hfile. cbn [mbind except_bind]. rewrite IH.
    rewrite length_app, fmap_cons. cbn [length seq].
    by rewrite Nat.add_1_r, <- !(assoc_L (++)).
Qed.

(** X1: when the directory can be listed and each of its files read,
    [load_directory_data] returns one new document per entry, in the order
    of the listing: the documents are new objects at the end of the heap,
    each with the file's contents (breaks replaced) as its text and the
    given label; the objects that were there are as before. *)
Theorem load_directory_data_result (directory : string) (label : Z) (h : heap)
    (names contents : list string) :
  os_listdir directory = Ok names →
  Forall2 (λ name c, open_read (os_path_join directory name) = Ok c) names contents →
  load_directory_data directory label h
  = Ok (seq (length h) (length names),
        h ++ ((λ c, {[ "text" := VStr (str_replace c "<br />" " ");
                       "label" := VInt label ]} : dict) <$> contents)).
Proof.
  intros Hls Hread. unfold load_directory_data. rewrite Hls. simpl.
  by rewrite (load_files_result _ _ _ _ Hread).
Qed.

(** X2: [load_dataset] returns the documents of [pos] before those of
    [neg]: with [p] readable files in [pos] and [q] in [neg], the first [p]
    documents carry the label 1 and the next [q] the label 0. *)
Theorem load_dataset_result (directory : string) (h : heap)
    (pos_names pos_contents neg_names neg_contents : list string) :
  os_listdir (os_path_join directory "pos") = Ok pos_names →
  os_listdir (os_path_join directory "neg") = Ok neg_names →
  Forall2 (λ name c, open_read (os_path_join (os_path_join directory "pos") name) = Ok c)
    pos_names pos_contents →
  Forall2 (λ name c, open_read (os_path_join (os_path_join directory "neg") name) = Ok c)
    neg_names neg_contents →
  load_dataset directory h
  = Ok (seq (length h) (length pos_names + length neg_names),
        h ++ ((λ c, {[ "text" := VStr (str_replace c "<br />" " ");
                       "label" := VInt 1 ]} : dict) <$> pos_contents)
          ++ ((λ c, {[ "text" := VStr (str_replace c "<br />" " ");
                       "label" := VInt 0 ]} : dict) <$> neg_contents)).
Proof.
  intros Hpos Hneg Hpos_read Hneg_read. unfold load_dataset, load_directory_data.
  rewrite Hpos. cbn [mbind except_bind].
  rewrite (load_files_result _ _ _ _ Hpos_read). cbn [mbind except_bind].
  rewrite Hneg. cbn [mbind except_bind].
  rewrite (load_files_result _ _ _ _ Hneg_read). cbn [mbind except_bind app].
  rewrite length_app, length_fmap, <- (Forall2_length _ _ _ Hpos_read).
  by rewrite seq_app, <- (assoc_L (++)).
Qed.

(** What a successful load says about its result, whatever was read. *)
Lemma load_files_locations (directory : string) (label : Z) (names : list string) :
  ∀ (data data' : list loc) (h h' : heap),
    for_each (load_file directory label) (data, h) names = Ok (data', h') →
    data' = data ++ seq (length h) (length names) ∧
    length h' = length h + length names.
Proof.
  induction names as [|name names IH]; intros data data' h h' Hrun; simpl in Hrun.
  - injection Hrun as <- <-. by rewrite app_nil_r.
  - apply bind_Ok_inv in Hrun as ([data1 h1] & Hfile & Hrun).
    unfold load_file in Hfile.
    apply bind_Ok_inv in Hfile as (c & _ & Hfile).
    simpl in Hfile. injection Hfile as <- <-.
    destruct (IH _ _ _ _ Hrun) as [-> ->].
    rewrite length_app. simpl. split; [|lia].
    by rewrite <- (assoc_L (++)), Nat.add_1_r.
Qed.

Lemma load_dataset_locations (directory : string) (h h' : heap) (data : list loc) :
  load_dataset directory h = Ok (data, h') →
  data = seq (length h) (length data) ∧ length h' = length h + length data.
Proof.
  intros Hrun. unfold load_dataset, load_directory_data in Hrun.
  apply bind_Ok_inv in Hrun as ([pos_data h1] & Hpos & Hrun).
  apply bind_Ok_inv in Hrun as ([neg_data h2] & Hneg & Hrun).
  injection Hrun as <- <-.
  apply bind_Ok_inv in Hpos as (pos_names & _ & Hpos).
  apply bind_Ok_inv in Hneg as (neg_names & _ & Hneg).
  apply load_files_locations in Hpos as [-> Hh1].
  apply load_files_locations in Hneg as [-> Hh2].
  simpl. rewrite Hh1, Hh2, !length_app, !length_seq, seq_app. split; [done|lia].
Qed.

(** X3: when cell 2 has run, every document is in exactly one of the two
    lists, exactly once: the locations in [train_data] and [test_data]
    together have no repetition and are all the objects of the heap, so no
    document of the test set is an alias of one of the training set. *)
Theorem cell_2_documents_distinct (train_data test_data : list loc) (h : heap) :
  cell_2 = Ok (train_data, test_data, h) →
  NoDup (train_data ++ test_data) ∧
  (∀ l, l ∈ train_data ++ test_data ↔ l < length h) ∧
  length h = length train_data + length test_data.
Proof.
  intros Hrun. unfold cell_2, download_and_load_datasets in Hrun.
  apply bind_Ok_inv in Hrun as ([[train test] h'] & Hrun & Hshuffle).
  injection Hshuffle as <- <- <-.
  apply bind_Ok_inv in Hrun as (dataset & _ & Hrun).
  apply bind_Ok_inv in Hrun as ([train' h1] & Htrain & Hrun).
  apply bind_Ok_inv in Hrun as ([test' h2] & Htest & Hrun).
  injection Hrun as <- <- <-.
  apply load_dataset_locations in Htrain as [Htrain Hh1].
  apply load_dataset_locations in Htest as [Htest Hh2].
  simpl in Htrain, Hh1.
  assert (random_shuffle 0 train' ++ random_shuffle 1 test'
          ≡ₚ seq 0 (length h2)) as Hperm.
  { rewrite !random_shuffle_perm, Hh2, seq_app. rewrite Hh1 in Htest |- *.
    simpl. by rewrite <- Htest, <- Htrain. }
  split; [rewrite Hperm; apply NoDup_seq|].
  split.
  - intros l. rewrite Hperm, elem_of_seq. lia.
  - by rewrite <- length_app, Hperm, length_seq.
Qed.
End loading_results.

(** ** Tokenization *)

Section tokenization_results.
Context {F : Type} {ker : Keras F}.

(** X4: a document without a ['text'] stops [tokenize_text] with the
    KeyError of that key, when the documents listed before it have their
    text. *)
Theorem tokenize_text_missing_text (before after : list loc) (document : loc)
    (max_tokens : Z) (h : heap) (d : dict) :
  (∀ l, l ∈ before → ∃ d s, h !! l = Some d ∧ d !! "text" = Some (VStr s)) →
  h !! document = Some d → d !! "text" = None →
  tokenize_text (before ++ document :: after) max_tokens h = Raise (KeyError "text").
Proof.
  intros Hbefore Hd Htext.
  destruct (tokenize_text_ok max_tokens before h Hbefore) as (h1 & Hrun & Hh1).
  eapply tokenize_document_raises; [exact Hrun|].
  assert (document ∉ before) as Hnotin.
  { intros Hin. destruct (Hbefore _ Hin) as (d' & s & Hd' & Hs). congruence. }
  unfold tokenize_document, deref, dict_get.
  rewrite Hh1, Hd, bool_decide_eq_false_2 by done. simpl. by rewrite Htext.
Qed.

(** X5: what [tokenize_text] does to the heap depends on which documents
    are listed, not on their order or on how often one is listed. *)
Theorem tokenize_text_order_irrelevant (documents1 documents2 : list loc)
    (max_tokens : Z) (h : heap) :
  (∀ l, l ∈ documents1 ↔ l ∈ documents2) →
  (∀ l, l ∈ documents1 → ∃ d s, h !! l = Some d ∧ d !! "text" = Some (VStr s)) →
  tokenize_text documents1 max_tokens h = tokenize_text documents2 max_tokens h.
Proof.
  intros Hsame Hdocs.
  destruct (tokenize_text_ok max_tokens documents1 h Hdocs) as (h1 & -> & Hh1).
  destruct (tokenize_text_ok max_tokens documents2 h) as (h2 & -> & Hh2).
  { intros l Hl. apply Hdocs. by apply Hsame. }
  f_equal. apply list_eq. intros l. rewrite Hh1, Hh2.
  by rewrite (bool_decide_ext _ _ (Hsame l)).
Qed.

(** X6: tokenizing again changes nothing: a second [tokenize_text] with
    the same limit returns the heap the first one left. *)
Theorem tokenize_text_idempotent (documents : list loc) (max_tokens : Z)
    (h : heap) :
  (∀ l, l ∈ documents → ∃ d s, h !! l = Some d ∧ d !! "text" = Some (VStr s)) →
  ∃ h', tokenize_text documents max_tokens h = Ok h' ∧
        tokenize_text documents max_tokens h' = Ok h'.
Proof.
  intros Hdocs.
  destruct (tokenize_text_ok max_tokens documents h Hdocs) as (h1 & Hrun1 & Hh1).
  exists h1. split; [done|].
  destruct (tokenize_text_ok max_tokens documents h1) as (h2 & Hrun2 & Hh2).
  { intros l Hl. destruct (Hdocs l Hl) as (d & s & Hd & Hs).
    exists (tokenized max_tokens d), s.
    rewrite Hh1, Hd, bool_decide_eq_true_2 by done.
    by rewrite tokenized_text. }
  rewrite Hrun2. f_equal. apply list_eq. intros l. rewrite Hh2, Hh1.
  destruct (h !! l) as [d|]; [|done]. simpl.
  destruct (bool_decide (l ∈ documents)); [|done].
  by rewrite tokenized_idemp.
Qed.

(** X7: a negative [max_tokens] is not an error and not "no limit": the
    slice [[0:max_tokens]] then drops the last [-max_tokens] words of every
    document (all of them when there are no more). *)
Theorem tokenize_text_negative_max_tokens (h : heap) (documents : list loc)
    (max_tokens : Z) :
  (max_tokens < 0)%Z →
  (∀ l, l ∈ documents → ∃ d s, h !! l = Some d ∧ d !! "text" = Some (VStr s)) →
  ∃ h', tokenize_text documents max_tokens h = Ok h' ∧
    ∀ l, l ∈ documents →
      ∃ (d d' : dict) (s : string),
        h !! l = Some d ∧ d !! "text" = Some (VStr s) ∧ h' !! l = Some d' ∧
        d' !! "tokens" =
          Some (VList (take (length (text_to_word_sequence s false)
                             - Z.to_nat (- max_tokens))
                         (text_to_word_sequence s false))).
Proof.
  intros Hneg Hdocs.
  destruct (tokenize_text_ok max_tokens documents h Hdocs) as (h' & Hrun & Hh').
  exists h'. split; [done|]. intros l Hl.
  destruct (Hdocs l Hl) as (d & s & Hd & Hs).
  exists d, (tokenized max_tokens d), s.
  split; [done|]. split; [done|].
  split; [by rewrite Hh', Hd, bool_decide_eq_true_2|].
  unfold tokenized, py_slice0. rewrite Hs, decide_False by lia.
  rewrite lookup_insert_eq. do 3 f_equal. lia.
Qed.
End tokenization_results.

(** ** The loop over the embedder's generator *)

Lemma mapM_raise {A B : Type} (f : A → except B) (l1 l2 : list A) (x : A) (e : exn) :
  (∀ y, y ∈ l1 → ∃ b, f y = Ok b) → f x = Raise e →
  mapM f (l1 ++ x :: l2) = Raise e.
Proof.
  intros Hl1 Hx. induction l1 as [|y l1 IH]; simpl.
  - by rewrite Hx.
  - destruct (Hl1 y) as [b ->]; [apply list_elem_of_here|]. simpl.
    rewrite IH; [done|]. intros z Hz. apply Hl1. by apply list_elem_of_further.
Qed.

Lemma mapM_not_raise {A B : Type} (f : A → except B) (l : list A) (e : exn) :
  (∀ y, f y ≠ Raise e) → mapM f l ≠ Raise e.
Proof.
  intros Hf. induction l as [|y l IH]; simpl; [done|].
  destruct (f y) as [e'|b] eqn:Hy; simpl.
  - intros [= ->]. by apply (Hf y).
  - destruct (mapM f l) as [e'|k]; simpl; [|done]. intros [= ->]. by apply IH.
Qed.

Section embedding_loop.
Context {F : Type} {num : Float32 F} {nlp : AllenNLP F}.

(** The rounds before [max_sentences] is reached: each takes one item and
    the document at the same position. *)
Lemma embed_loop_run (h : heap) (documents : list loc)
    (max_sentences num_sentences : Z) (items2 : list (ndarray F))
    (at_end : option exn) :
  ∀ (items1 avgs : list (ndarray F)) (taken : list loc) (labels : list value)
    (embs : list (ndarray F)) (labs : list value) (idx : nat),
    Forall2 (λ e a, np_average e = Ok a) items1 avgs →
    Forall2 (λ l v, ∃ d : dict, h !! l = Some d ∧ d !! "label" = Some v)
      taken labels →
    length items1 = length taken →
    (∀ i l, taken !! i = Some l → documents !! (idx + i) = Some l) →
    (items1 ≠ [] → num_sentences ≠ 0%Z) →
    ((max_sentences > 0)%Z → (Z.of_nat (idx + length items1) < max_sentences)%Z) →
    embed_loop h documents max_sentences num_sentences (items1 ++ items2) at_end
      (embs, labs, idx)
    = embed_loop h documents max_sentences num_sentences items2 at_end
        (embs ++ avgs, labs ++ labels, idx + length items1).
Proof.
  induction items1 as [|e items1 IH];
    intros avgs taken labels embs labs idx Havg Hlab Hlen Hdocs Hns Hms.
  - apply Forall2_nil_inv_l in Havg as ->.
    destruct taken; [|done]. apply Forall2_nil_inv_l in Hlab as ->.
    simpl. by rewrite !app_nil_r, Nat.add_0_r.
  - apply Forall2_cons_inv_l in Havg as (a & avgs' & Ha & Havg & ->).
    destruct taken as [|l taken]; [done|].
    apply Forall2_cons_inv_l in Hlab as (v & labels' & (d & Hd & Hv) & Hlab & ->).
    assert (documents !! idx = Some l) as Hl.
    { rewrite <- (Nat.add_0_r idx). by apply Hdocs. }
    cbn [app embed_loop]. unfold list_get, deref, dict_get.
    rewrite Hl. simpl. rewrite Hd. simpl. rewrite Ha. simpl. rewrite Hv. simpl.
    rewrite decide_False by (by apply Hns).
    simpl in Hms, Hlen.
    rewrite decide_False by lia.
    rewrite (IH avgs' taken labels'); [| done | done | lia | | | lia].
    + rewrite <- !(assoc_L (++)). simpl. do 2 f_equal. lia.
    + intros i l' Hi. replace (idx + 1 + i) with (idx + S i) by lia.
      by apply Hdocs.
    + intros _. by apply Hns.
Qed.

(** The round in which [max_sentences] is reached ends the loop. *)
Lemma embed_loop_last (h : heap) (documents : list loc)
    (max_sentences num_sentences : Z) (later : list (ndarray F))
    (at_end : option exn) (e a : ndarray F) (l : loc) (d : dict) (v : value)
    (embs : list (ndarray F)) (labs : list value) (idx : nat) :
  documents !! idx = Some l → h !! l = Some d → d !! "label" = Some v →
  np_average e = Ok a → num_sentences ≠ 0%Z →
  (max_sentences > 0)%Z → (Z.of_nat (idx + 1) >= max_sentences)%Z →
  embed_loop h documents max_sentences num_sentences (e :: later) at_end
    (embs, labs, idx)
  = Ok (embs ++ [a], labs ++ [v]).
Proof.
  intros Hl Hd Hv Ha Hns Hpos Hge.
  cbn [embed_loop]. unfold list_get, deref, dict_get.
  rewrite Hl. simpl. rewrite Hd. simpl. rewrite Ha. simpl. rewrite Hv. simpl.
  rewrite decide_False by done. by rewrite decide_True.
Qed.

Lemma num_sentences_of_nonzero (max_sentences : Z) (documents : list loc) :
  documents ≠ [] → num_sentences_of max_sentences documents ≠ 0%Z.
Proof.
  intros Hne. unfold num_sentences_of. destruct documents; [done|]. simpl length.
  destruct (decide (max_sentences > 0)%Z); lia.
Qed.
End embedding_loop.

Lemma list_snoc_inv {A : Type} (l : list A) :
  l ≠ [] → ∃ l' x, l = l' ++ [x].
Proof.
  induction l as [|x l _] using rev_ind; [done|]. intros _. by exists l, x.
Qed.

Section embedding_results.
Context {F : Type} {num : Float32 F} {nlp : AllenNLP F}.

(** X8: a document without ['tokens'] stops [create_elmo_embeddings] with
    the KeyError of that key wherever it stands in the list, also behind the
    first [max_sentences] documents, which are the only ones embedded: the
    tokens of all documents are collected before the embedder is called. *)
Theorem create_elmo_embeddings_missing_tokens (elmo : elmo_embedder)
    (before after : list loc) (document : loc) (max_sentences : Z)
    (h : heap) (d : dict) :
  (∀ l, l ∈ before → ∃ (d : dict) ts, h !! l = Some d ∧ d !! "tokens" = Some (VList ts)) →
  h !! document = Some d → d !! "tokens" = None →
  create_elmo_embeddings elmo (before ++ document :: after) max_sentences h
  = Raise (KeyError "tokens").
Proof.
  intros Hbefore Hd Htok. unfold create_elmo_embeddings, tokens_of.
  rewrite (mapM_raise _ _ _ _ (KeyError "tokens")); [done | |].
  - intros l Hl. destruct (Hbefore l Hl) as (d' & ts & Hd' & Hts).
    exists ts. unfold deref, dict_get. rewrite Hd'. simpl. by rewrite Hts.
  - unfold deref, dict_get. rewrite Hd. simpl. by rewrite Htok.
Qed.

(** X9: with [max_sentences > 0] the loop takes [max_sentences] items from
    the generator and leaves it: the result is the averages of these items
    and the labels of the first [max_sentences] documents, whatever the
    generator would have yielded or raised afterwards, and whether or not
    the documents behind them have a label. *)
Theorem create_elmo_embeddings_stops_at_max_sentences (elmo : elmo_embedder)
    (taken rest : list loc) (max_sentences : Z) (h : heap)
    (tokens : list (list string)) (items later avgs : list (ndarray F))
    (labels : list value) :
  tokens_of h (taken ++ rest) = Ok tokens →
  (max_sentences > 0)%Z → Z.to_nat max_sentences = length taken →
  yields (embed_sentences elmo tokens) = items ++ later →
  length items = length taken →
  Forall2 (λ e a, np_average e = Ok a) items avgs →
  Forall2 (λ l v, ∃ d : dict, h !! l = Some d ∧ d !! "label" = Some v) taken labels →
  create_elmo_embeddings elmo (taken ++ rest) max_sentences h = Ok (avgs, labels).
Proof.
  intros Htok Hpos Hms Hitems Hlen Havg Hlab.
  unfold create_elmo_embeddings. rewrite Htok. cbn [mbind except_bind].
  rewrite Hitems.
  destruct (list_snoc_inv items) as (items' & e & ->).
  { intros ->. simpl in Hlen. lia. }
  apply Forall2_app_inv_l in Havg as (avgs' & last & Havg & Hlast & ->).
  apply Forall2_cons_inv_l in Hlast as (a & ? & Ha & Hnil & ->).
  apply Forall2_nil_inv_l in Hnil as ->.
  destruct (list_snoc_inv taken) as (taken' & l & ->).
  { intros ->. simpl in Hms. lia. }
  apply Forall2_app_inv_l in Hlab as (labels' & last & Hlab & Hlast & ->).
  apply Forall2_cons_inv_l in Hlast as (v & ? & (d & Hd & Hv) & Hnil & ->).
  apply Forall2_nil_inv_l in Hnil as ->.
  repeat rewrite length_app in Hlen. repeat rewrite length_app in Hms.
  simpl in Hlen, Hms.
  assert (length items' = length taken') as Hlen' by lia.
  assert (num_sentences_of max_sentences ((taken' ++ [l]) ++ rest) ≠ 0%Z) as Hns.
  { apply num_sentences_of_nonzero. by destruct taken'. }
  rewrite <- (assoc_L (++) items'). simpl.
  rewrite (embed_loop_run h _ max_sentences _ (e :: later) _ items' avgs' taken' labels');
    [| done | done | done | | done | lia].
  - simpl. apply (embed_loop_last h _ max_sentences _ later _ e a l d v);
      [| done | done | done | done | done | lia].
    rewrite Hlen', <- (assoc_L (++)). simpl. by apply list_lookup_middle.
  - intros i l' Hi. simpl. rewrite <- !(assoc_L (++)).
    by apply lookup_app_l_Some.
Qed.

(** X10: when the loop is not cut short by [max_sentences] (it is not
    positive, or larger than the number of items), the loop runs to the end
    of the generator: an exception the generator raises there is the outcome;
    if it ends normally, there is one embedding and one label per item, also
    when the items are fewer than the documents. *)
Theorem create_elmo_embeddings_runs_to_the_end (elmo : elmo_embedder)
    (taken rest : list loc) (max_sentences : Z) (h : heap)
    (tokens : list (list string)) (avgs : list (ndarray F)) (labels : list value) :
  tokens_of h (taken ++ rest) = Ok tokens →
  (max_sentences ≤ 0 ∨
   Z.of_nat (length (yields (embed_sentences elmo tokens))) < max_sentences)%Z →
  length (yields (embed_sentences elmo tokens)) = length taken →
  Forall2 (λ e a, np_average e = Ok a) (yields (embed_sentences elmo tokens)) avgs →
  Forall2 (λ l v, ∃ d : dict, h !! l = Some d ∧ d !! "label" = Some v) taken labels →
  create_elmo_embeddings elmo (taken ++ rest) max_sentences h
  = match raises (embed_sentences elmo tokens) with
    | Some e => Raise e
    | None => Ok (avgs, labels)
    end.
Proof.
  intros Htok Hms Hlen Havg Hlab.
  unfold create_elmo_embeddings. rewrite Htok. cbn [mbind except_bind].
  rewrite <- (app_nil_r (yields (embed_sentences elmo tokens))) at 1.
  rewrite (embed_loop_run h _ max_sentences _ [] _ _ avgs taken labels);
    [| done | done | done | | | lia].
  - simpl. by destruct (raises (embed_sentences elmo tokens)).
  - intros i l Hi. simpl. by apply lookup_app_l_Some.
  - intros Hne. apply num_sentences_of_nonzero.
    destruct taken; [|done]. by destruct (yields (embed_sentences elmo tokens)).
Qed.

(** X11: an embedder that yields more items than there are documents makes
    the loop index [documents] past its end: unless [max_sentences] cuts the
    loop before, [create_elmo_embeddings] raises an IndexError. *)
Theorem create_elmo_embeddings_too_many_items (elmo : elmo_embedder)
    (documents : list loc) (max_sentences : Z) (h : heap)
    (tokens : list (list string)) (items later avgs : list (ndarray F))
    (extra : ndarray F) (labels : list value) :
  tokens_of h documents = Ok tokens →
  yields (embed_sentences elmo tokens) = items ++ extra :: later →
  length items = length documents →
  (max_sentences ≤ 0 ∨ Z.of_nat (length documents) < max_sentences)%Z →
  Forall2 (λ e a, np_average e = Ok a) items avgs →
  Forall2 (λ l v, ∃ d : dict, h !! l = Some d ∧ d !! "label" = Some v) documents labels →
  create_elmo_embeddings elmo documents max_sentences h = Raise IndexError.
Proof.
  intros Htok Hitems Hlen Hms Havg Hlab.
  unfold create_elmo_embeddings. rewrite Htok. cbn [mbind except_bind].
  rewrite Hitems.
  rewrite (embed_loop_run h _ max_sentences _ (extra :: later) _ items avgs documents labels);
    [| done | done | done | done | | lia].
  - cbn [embed_loop]. unfold list_get.
    rewrite lookup_ge_None_2 by (simpl; lia). done.
  - intros Hne. apply num_sentences_of_nonzero.
    destruct documents; [|done]. by destruct items.
Qed.

Lemma embed_loop_no_division_by_zero (h : heap) (documents : list loc)
    (max_sentences num_sentences : Z) (at_end : option exn) :
  (num_sentences = 0%Z → documents = []) →
  at_end ≠ Some ZeroDivisionError →
  ∀ (items : list (ndarray F)) (st : list (ndarray F) * list value * nat),
    Forall (λ e, np_average e ≠ Raise ZeroDivisionError) items →
    embed_loop h documents max_sentences num_sentences items at_end st
    ≠ Raise ZeroDivisionError.
Proof.
  intros Hns Hend. induction items as [|e items IH];
    intros [[embs labs] idx] Hitems.
  - simpl. destruct at_end as [e|]; [|done]. intros [= ->]. done.
  - apply Forall_cons in Hitems as [He Hitems].
    cbn [embed_loop]. unfold list_get, deref, dict_get.
    destruct (documents !! idx) as [l|] eqn:Hl; simpl; [|done].
    destruct (h !! l) as [d|]; simpl; [|done].
    destruct (np_average e) as [e'|a]; simpl; [congruence|].
    destruct (d !! "label"); simpl; [|done].
    destruct (decide (num_sentences = 0%Z)) as [Hz|Hnz].
    { rewrite (Hns Hz) in Hl. done. }
    destruct (decide _); [done|]. by apply IH.
Qed.

(** X12: the percentage of the progress line never divides by zero:
    [num_sentences] is zero only for an empty list of documents, and then
    the loop has nothing to index.  A ZeroDivisionError of
    [create_elmo_embeddings] can therefore only be one that [np.average]
    raises on an item without entries, or one the generator raises at its
    end: when neither happens, the function raises none. *)
Theorem create_elmo_embeddings_no_division_by_zero (elmo : elmo_embedder)
    (documents : list loc) (max_sentences : Z) (h : heap) :
  (∀ tokens, tokens_of h documents = Ok tokens →
     raises (embed_sentences elmo tokens) ≠ Some ZeroDivisionError ∧
     Forall (λ e, np_average e ≠ Raise ZeroDivisionError)
       (yields (embed_sentences elmo tokens))) →
  create_elmo_embeddings elmo documents max_sentences h ≠ Raise ZeroDivisionError.
Proof.
  intros Hgen. unfold create_elmo_embeddings.
  destruct (tokens_of h documents) as [e|tokens] eqn:Htok; simpl.
  - intros [= ->]. revert Htok. unfold tokens_of. apply mapM_not_raise.
    intros l. unfold deref, dict_get.
    destruct (h !! l) as [d|]; simpl; [|done].
    destruct (d !! "tokens") as [[]|]; done.
  - destruct (Hgen tokens eq_refl) as [Hend Hitems].
    apply embed_loop_no_division_by_zero; [|done|done].
    intros Hz. destruct (decide (documents = [])) as [|Hne]; [done|].
    by apply num_sentences_of_nonzero in Hz.
Qed.
End embedding_results.

(** ** Padding: sequences that do not fit *)

Section padding_results.
Context {F : Type} {num : Float32 F}.

Lemma padded_shape (a : ndarray F) (n c : nat) :
  shape a = [n; c] → shape (padded a) = [n `max` Z.to_nat max_tokens; c].
Proof.
  intros Hs. unfold padded. rewrite Hs.
  destruct (decide (Z.of_nat n < max_tokens)%Z); simpl.
  - f_equal. lia.
  - rewrite Hs. f_equal. lia.
Qed.

(** X13: [pad_x_matrix] never shortens a sequence.  When all sequences
    have the same number of rows and it is [max_tokens] or more, nothing is
    appended and nothing cut: the result stacks the sequences as they
    are. *)
Theorem pad_x_matrix_keeps_long_sequences (x_matrix : list (ndarray F)) (n d : nat) :
  x_matrix ≠ [] →
  Forall (λ a, shape a = [n; d]) x_matrix →
  (max_tokens ≤ Z.of_nat n)%Z →
  pad_x_matrix x_matrix
  = Ok (NDArray [length x_matrix; n; d] (concat (data <$> x_matrix))).
Proof.
  intros Hne Hall Hn.
  rewrite pad_x_matrix_2d
    by (eapply Forall_impl; [exact Hall|]; intros a Hs; by exists n, d).
  assert (padded <$> x_matrix = x_matrix) as ->.
  { rewrite <- (list_fmap_id x_matrix) at 2. apply Forall_fmap_ext_1.
    eapply Forall_impl; [exact Hall|]. intros a Hs. unfold padded.
    rewrite Hs. by rewrite decide_False by lia. }
  by apply np_array_same_shape.
Qed.

(** X14: for sequences with their two dimensions, [pad_x_matrix] fails
    exactly when the padded sequences cannot be stacked, with a ValueError:
    when two of them differ in the embedding dimension, or in the number of
    rows after padding, which takes one with more than [max_tokens] rows. *)
Theorem pad_x_matrix_value_error (x_matrix : list (ndarray F)) :
  Forall (λ a, ∃ n c, shape a = [n; c]) x_matrix →
  pad_x_matrix x_matrix = Raise ValueError ↔
  ∃ (a b : ndarray F) (na ca nb cb : nat),
    a ∈ x_matrix ∧ b ∈ x_matrix ∧ shape a = [na; ca] ∧ shape b = [nb; cb] ∧
    (ca ≠ cb ∨ na `max` Z.to_nat max_tokens ≠ nb `max` Z.to_nat max_tokens).
Proof.
  intros H2d. rewrite (pad_x_matrix_2d _ H2d).
  destruct x_matrix as [|a0 rest].
  { split; [done|]. intros (a & b & ? & ? & ? & ? & Ha & _). by apply elem_of_nil in Ha. }
  apply Forall_cons in H2d as [(n0 & c0 & Hs0) H2d].
  unfold np_array. rewrite fmap_cons.
  destruct (forallb (λ b, bool_decide (shape b = shape (padded a0)))
              (padded <$> rest)) eqn:Hall.
  - split; [done|]. intros (a & b & na & ca & nb & cb & Ha & Hb & Hsa & Hsb & Hdiff).
    exfalso.
    assert (∀ b, b ∈ a0 :: rest → shape (padded b) = shape (padded a0)) as Hsame.
    { intros b' Hb'. apply elem_of_cons in Hb' as [->|Hb']; [done|].
      rewrite forallb_forall in Hall.
      eapply bool_decide_eq_true_1, Hall, list_elem_of_In, list_elem_of_fmap.
      by exists b'. }
    pose proof (Hsame a Ha) as Ea. pose proof (Hsame b Hb) as Eb.
    rewrite (padded_shape _ _ _ Hsa) in Ea. rewrite (padded_shape _ _ _ Hsb) in Eb.
    rewrite (padded_shape _ _ _ Hs0) in Ea, Eb.
    injection Ea as Ea1 Ea2. injection Eb as Eb1 Eb2. destruct Hdiff; congruence.
  - split; [|done]. intros _.
    assert (∃ b, b ∈ rest ∧ shape (padded b) ≠ shape (padded a0)) as (b & Hb & Hne).
    { clear H2d. induction rest as [|b rest IH]; [done|]. simpl in Hall.
      destruct (decide (shape (padded b) = shape (padded a0))) as [He|Hne].
      - rewrite bool_decide_eq_true_2 in Hall by done. simpl in Hall.
        destruct (IH Hall) as (b' & Hb' & Hne). exists b'. split; [|done].
        by apply list_elem_of_further.
      - exists b. split; [apply list_elem_of_here | done]. }
    rewrite Forall_forall in H2d. destruct (H2d b Hb) as (nb & cb & Hsb).
    exists a0, b, n0, c0, nb, cb.
    split; [apply list_elem_of_here|]. split; [by apply list_elem_of_further|].
    split; [done|]. split; [done|].
    rewrite (padded_shape _ _ _ Hsb), (padded_shape _ _ _ Hs0) in Hne.
    destruct (decide (c0 = cb)) as [->|?]; [|by left]. right.
    intros Hmax. apply Hne. by rewrite Hmax.
Qed.
End padding_results.

(** ** From the documents to the padded array *)

Lemma mapM_Ok_length {A B : Type} (f : A → except B) (l : list A) (k : list B) :
  mapM f l = Ok k → length k = length l.
Proof.
  revert k. induction l as [|x l IH]; intros k Hk; simpl in Hk.
  - by injection Hk as <-.
  - apply bind_Ok_inv in Hk as (y & _ & Hk).
    apply bind_Ok_inv in Hk as (k' & Hk' & Hk).
    injection Hk as <-. simpl. f_equal. by apply IH.
Qed.

Section embed_then_pad.
Context {F : Type} {num : Float32 F} {nlp : AllenNLP F}.

(** X15: cells 4 and 5 fit together.  When every document has at least
    one token and at most [max_tokens] (the upper bound is what
    [tokenize_text] leaves) and the embedder yields, for each sentence, an
    array of [k] layers with one row of [D > 0] numbers per token, then
    [create_elmo_embeddings] followed by [pad_x_matrix] returns: there are
    [n] labels and the array has the shape [(n, max_tokens, D)], with [n] the
    number of documents embedded. *)
Theorem embeddings_pad_to_one_shape (elmo : elmo_embedder) (documents : list loc)
    (max_sentences : Z) (h : heap) (tokens : list (list string)) (k D : nat) :
  documents ≠ [] → 0 < D →
  tokens_of h documents = Ok tokens →
  Forall (λ ts, 0 < length ts ∧ (Z.of_nat (length ts) ≤ max_tokens)%Z) tokens →
  (∀ l, l ∈ documents → ∃ d : dict, h !! l = Some d ∧ is_Some (d !! "label")) →
  raises (embed_sentences elmo tokens) = None →
  Forall2 (λ ts e, shape e = [k; length ts; D]) tokens
    (yields (embed_sentences elmo tokens)) →
  let n :=
    if decide (max_sentences > 0)%Z
    then Nat.min (Z.to_nat max_sentences) (length documents)
    else length documents in
  ∃ embeddings labels m,
    create_elmo_embeddings elmo documents max_sentences h = Ok (embeddings, labels) ∧
    length labels = n ∧
    pad_x_matrix embeddings = Ok m ∧
    shape m = [n; Z.to_nat max_tokens; D].
Proof.
  intros Hne HD Htok Hshort Hlab Hend Hshape n.
  assert (length tokens = length documents) as Hlen_tok
    by (by eapply mapM_Ok_length).
  assert (length (yields (embed_sentences elmo tokens)) = length documents) as Hlen
    by (by rewrite <- (Forall2_length _ _ _ Hshape)).
  destruct (Forall_exists_Forall2
              (λ e a, np_average e = Ok a ∧
                      ∃ r, shape a = [r; D] ∧ (Z.of_nat r ≤ max_tokens)%Z)
              (yields (embed_sentences elmo tokens))) as [avgs Havgs].
  { apply Forall_lookup. intros i e He.
    destruct (Forall2_lookup_r _ _ _ _ _ Hshape He) as (ts & Hts & Hs).
    rewrite Forall_lookup in Hshort. destruct (Hshort i ts Hts) as [Hpos Hmax].
    unfold np_average. rewrite Hs.
    rewrite decide_False by (unfold size_of; cbn [foldr]; lia).
    eexists. split; [done|]. by exists (length ts). }
  assert (Forall2 (λ e a, np_average e = Ok a)
            (yields (embed_sentences elmo tokens)) avgs) as Havg.
  { eapply Forall2_impl; [exact Havgs|]. by intros e a [? _]. }
  assert (Forall (λ a, ∃ r, shape a = [r; D] ∧ (Z.of_nat r ≤ max_tokens)%Z) avgs)
    as Hrows.
  { apply Forall_lookup. intros i a Ha.
    destruct (Forall2_lookup_r _ _ _ _ _ Havgs Ha) as (e & _ & _ & Hr). done. }
  destruct (Forall_exists_Forall2
              (λ l v, ∃ d : dict, h !! l = Some d ∧ d !! "label" = Some v)
              documents) as [labels Hlabels].
  { apply Forall_forall. intros l Hl.
    destruct (Hlab l Hl) as (d & Hd & v & Hv). eauto. }
  assert (length avgs = length documents) as Hlen_avgs
    by (by rewrite <- (Forall2_length _ _ _ Havg)).
  assert (length labels = length documents) as Hlen_labels
    by (by rewrite <- (Forall2_length _ _ _ Hlabels)).
  pose proof (embed_loop_spec h documents max_sentences _
                (num_sentences_of_nonzero max_sentences documents Hne)
                _ avgs documents labels [] [] 0 Havg Hlabels eq_refl Hlen) as Hloop.
  cbn zeta in Hloop. rewrite !app_nil_l in Hloop.
  set (count := if decide (max_sentences > 0)%Z
                then Z.to_nat (max_sentences - Z.of_nat 0)
                else length (yields (embed_sentences elmo tokens))) in Hloop.
  assert (Nat.min count (length documents) = n ∧ 0 < n) as [Hn Hpos].
  { subst count n. destruct documents; [done|]. simpl length in *.
    destruct (decide (max_sentences > 0)%Z); lia. }
  exists (take count avgs), (take count labels).
  assert (Forall (λ a, shape (padded a) = [Z.to_nat max_tokens; D])
            (take count avgs)) as Hpadded.
  { apply Forall_take. eapply Forall_impl; [exact Hrows|].
    intros a (r & Hs & Hr). by apply (padded_rows a r D). }
  eexists. split.
  { unfold create_elmo_embeddings. rewrite Htok. cbn [mbind except_bind].
    rewrite Hend. apply Hloop. lia. }
  split; [rewrite length_take; lia|].
  rewrite pad_x_matrix_2d.
  2: { apply Forall_take. eapply Forall_impl; [exact Hrows|].
       intros a (r & Hs & _). eauto. }
  rewrite (np_array_same_shape _ [Z.to_nat max_tokens; D]).
  - split; [done|]. simpl. rewrite length_fmap, length_take. do 2 f_equal. lia.
  - intros Hnil. apply (f_equal length) in Hnil.
    rewrite length_fmap, length_take in Hnil. simpl in Hnil. lia.
  - by apply Forall_fmap.
Qed.
End embed_then_pad.

(** ** The text of a document *)

Lemma string_prefix_split (old s : string) :
  String.prefix old s = true → ∃ r, s = old +:+ r.
Proof.
  revert s. induction old as [|a old IH]; intros s Hp.
  - by exists s.
  - destruct s as [|b s]; simpl in Hp; [done|].
    destruct (Ascii.ascii_dec a b) as [->|]; [|done].
    destruct (IH s Hp) as [r ->]. by exists r.
Qed.

Lemma replace_from_no_occurrence (old new s : string) :
  (∀ s1 s2, s ≠ s1 +:+ old +:+ s2) → replace_from old new 0 s = s.
Proof.
  induction s as [|c s IH]; intros Hno; [done|].
  cbn [replace_from].
  destruct (String.prefix old (String c s)) eqn:Hp.
  - apply string_prefix_split in Hp as [r Hr].
    by destruct (Hno EmptyString r).
  - f_equal. apply IH. intros s1 s2 ->.
    by apply (Hno (String c s1) s2).
Qed.

Lemma string_prefix_append (old r : string) : String.prefix old (old +:+ r) = true.
Proof.
  induction old as [|a old IH]; simpl; [by destruct r|].
  by destruct (Ascii.ascii_dec a a).
Qed.

(** [occurs] decides whether a string can be split around [old]. *)
Lemma occurs_false_no_occurrence (old s : string) :
  occurs old s = false → ∀ s1 s2, s ≠ s1 +:+ old +:+ s2.
Proof.
  intros Hocc s1. revert s Hocc. induction s1 as [|c s1 IH]; intros s Hocc s2 ->.
  - change (EmptyString +:+ old +:+ s2) with (old +:+ s2) in Hocc.
    pose proof (string_prefix_append old s2) as Hp.
    destruct (old +:+ s2); cbn [occurs] in Hocc; [congruence|].
    apply orb_false_iff in Hocc as [Hocc _]. congruence.
  - change (String c s1 +:+ old +:+ s2) with (String c (s1 +:+ old +:+ s2)) in Hocc.
    cbn [occurs] in Hocc. apply orb_false_iff in Hocc as [_ Hocc].
    by apply (IH _ Hocc s2).
Qed.

Section verbatim.
Context {os : OS}.

(** X16: a file in which [<br />] does not occur is stored as it is: the
    round of the loop of [load_directory_data] that reads it appends a new
    document whose text is the contents of the file. *)
Theorem load_file_verbatim (directory file_path contents : string) (label : Z)
    (data : list loc) (h : heap) :
  open_read (os_path_join directory file_path) = Ok contents →
  (∀ s1 s2, contents ≠ s1 +:+ "<br />" +:+ s2) →
  load_file directory label (data, h) file_path
  = Ok (data ++ [length h],
        h ++ [{[ "text" := VStr contents; "label" := VInt label ]}]).
Proof.
  intros Hread Hno. unfold load_file. rewrite Hread.
  cbn [mbind except_bind alloc fst snd str_replace].
  by rewrite (replace_from_no_occurrence "<br />" " " contents Hno).
Qed.
End verbatim.

(* ===================================================================== *)
(** * Exceptions                                                          *)
(* ===================================================================== *)




Section exceptions.
Context {os : OS} {rnd : Random} {F : Type} {num : Float32 F}
  {ker : Keras F} {nlp : AllenNLP F}.







End exceptions.

Import Demo.



(** The hypothesis of C5 in the small world: the notebook runs to its end
    there. *)
Lemma documents_have_three_keys_witness :
  notebook (F:=Z) = Ok globals_at_end ∧
  ∀ l, l ∈ train_data globals_at_end ++ test_data globals_at_end →
    ∃ (d : dict) (path contents : string) (label : Z),
      objects globals_at_end !! l = Some d ∧
      dom d = {[ "text"; "label"; "tokens" ]} ∧
      open_read path = Ok contents ∧
      d !! "text" = Some (VStr (str_replace contents "<br />" " ")) ∧
      d !! "label" = Some (VInt label) ∧ (label = 1 ∨ label = 0)%Z ∧
      d !! "tokens" =
        Some (VList (py_slice0
                       (text_to_word_sequence (str_replace contents "<br />" " ") false)
                       max_tokens)).
Proof.
  assert (notebook (F:=Z) = Ok globals_at_end) as Hrun by reflexivity.
  split; [exact Hrun|]. by apply documents_have_three_keys.
Defined.

(** ** The further properties in the small world *)

(** X1 at a directory of two files. *)
Lemma load_directory_data_result_witness :
  let contents :=
    ["A fine film.<br /><br />Seen at reviews/0_9.txt";
     "A fine film.<br /><br />Seen at reviews/1_7.txt"] in
  load_directory_data "reviews" 1 []
  = Ok (seq (length ([] : heap)) (length ["0_9.txt"; "1_7.txt"]),
        [] ++ ((λ c, {[ "text" := VStr (str_replace c "<br />" " ");
                        "label" := VInt 1 ]} : dict) <$> contents)).
Proof.
  intros contents.
  apply (load_directory_data_result "reviews" 1 [] ["0_9.txt"; "1_7.txt"] contents).
  - reflexivity.
  - repeat constructor.
Defined.

(** X2 at a dataset of two positive and two negative reviews. *)
Lemma load_dataset_result_witness :
  let pos_contents :=
    ["A fine film.<br /><br />Seen at train/pos/0_9.txt";
     "A fine film.<br /><br />Seen at train/pos/1_7.txt"] in
  let neg_contents :=
    ["A fine film.<br /><br />Seen at train/neg/0_9.txt";
     "A fine film.<br /><br />Seen at train/neg/1_7.txt"] in
  load_dataset "train" []
  = Ok (seq (length ([] : heap))
          (length ["0_9.txt"; "1_7.txt"] + length ["0_9.txt"; "1_7.txt"]),
        [] ++ ((λ c, {[ "text" := VStr (str_replace c "<br />" " ");
                        "label" := VInt 1 ]} : dict) <$> pos_contents)
           ++ ((λ c, {[ "text" := VStr (str_replace c "<br />" " ");
                        "label" := VInt 0 ]} : dict) <$> neg_contents)).
Proof.
  intros pos_contents neg_contents.
  apply (load_dataset_result "train" [] ["0_9.txt"; "1_7.txt"] pos_contents
           ["0_9.txt"; "1_7.txt"] neg_contents).
  - reflexivity.
  - reflexivity.
  - repeat constructor.
  - repeat constructor.
Defined.

(** X3 in the small world, where cell 2 loads eight documents. *)
Lemma cell_2_documents_distinct_witness :
  ∃ (train_data test_data : list loc) (h : heap),
    cell_2 (F:=Z) = Ok (train_data, test_data, h) ∧
    NoDup (train_data ++ test_data) ∧
    (∀ l, l ∈ train_data ++ test_data ↔ l < length h) ∧
    length h = length train_data + length test_data.
Proof.
  eexists _, _, _. split; [reflexivity|].
  apply (cell_2_documents_distinct (F:=Z)). reflexivity.
Defined.

(** X4 at a list whose second document has a label and no text. *)
Lemma tokenize_text_missing_text_witness :
  tokenize_text ([0] ++ 1 :: []) 100
    [ {[ "text" := VStr "A fine film" ]}; {[ "label" := VInt 0 ]} ]
  = Raise (KeyError "text").
Proof.
  apply (tokenize_text_missing_text [0] [] 1 100 _ {[ "label" := VInt 0 ]}).
  - intros l Hl. apply list_elem_of_singleton in Hl as ->.
    by exists {[ "text" := VStr "A fine film" ]}, "A fine film".
  - reflexivity.
  - reflexivity.
Defined.

(** X5 at two documents, listed in order and listed backwards with one of
    them twice. *)
Lemma tokenize_text_order_irrelevant_witness :
  let h : heap :=
    [ {[ "text" := VStr "A fine film" ]}; {[ "text" := VStr "Dull, dull" ]} ] in
  tokenize_text [0; 1] 2 h = tokenize_text [1; 0; 1] 2 h.
Proof.
  intros h. apply (tokenize_text_order_irrelevant [0; 1] [1; 0; 1] 2 h).
  - intros l. rewrite !elem_of_cons, !elem_of_nil. tauto.
  - intros l Hl. rewrite !elem_of_cons, elem_of_nil in Hl.
    destruct Hl as [->|[->|[]]]; eexists _, _; split; reflexivity.
Defined.

(** X6 at one document. *)
Lemma tokenize_text_idempotent_witness :
  let h : heap := [ {[ "text" := VStr "A fine film" ]} ] in
  ∃ h' : heap, tokenize_text [0] 2 h = Ok h' ∧ tokenize_text [0] 2 h' = Ok h'.
Proof.
  intros h. apply (tokenize_text_idempotent [0] 2 h).
  intros l Hl. apply list_elem_of_singleton in Hl as ->.
  eexists _, _; split; reflexivity.
Defined.

(** X7 at a document of three words and the limit -1. *)
Lemma tokenize_text_negative_max_tokens_witness :
  let h : heap := [ {[ "text" := VStr "A fine film" ]} ] in
  ∃ h' : heap, tokenize_text [0] (-1) h = Ok h' ∧
    ∀ l : loc, l ∈ [0] →
      ∃ (d d' : dict) (s : string),
        h !! l = Some d ∧ d !! "text" = Some (VStr s) ∧ h' !! l = Some d' ∧
        d' !! "tokens" =
          Some (VList (take (length (text_to_word_sequence s false)
                             - Z.to_nat (- -1))
                         (text_to_word_sequence s false))).
Proof.
  intros h. apply (tokenize_text_negative_max_tokens h [0] (-1)).
  - lia.
  - intros l Hl. apply list_elem_of_singleton in Hl as ->.
    eexists _, _; split; reflexivity.
Defined.

Example tokenize_text_negative :
  (tokenize_text [0] (-1) [ {[ "text" := VStr "A fine film" ]} ]
   ≫= λ h : heap, Ok ((λ d : dict, d !! "tokens") <$> h))
  = Ok [Some (VList ["A"; "fine"])].
Proof. by vm_compute. Qed.

(** X8 at a second document without tokens, behind the one document asked
    for. *)
Lemma create_elmo_embeddings_missing_tokens_witness :
  create_elmo_embeddings (nlp:=allennlp) () ([0] ++ 1 :: []) 1
    [ {[ "tokens" := VList ["A"; "fine"]; "label" := VInt 1 ]};
      {[ "text" := VStr "Dull"; "label" := VInt 0 ]} ]
  = Raise (KeyError "tokens").
Proof.
  apply (create_elmo_embeddings_missing_tokens (nlp:=allennlp) () [0] [] 1 1 _
           {[ "text" := VStr "Dull"; "label" := VInt 0 ]}).
  - intros l Hl. apply list_elem_of_singleton in Hl as ->.
    eexists _, _; split; reflexivity.
  - reflexivity.
  - reflexivity.
Defined.

(** X9 with an embedder that fails at the end of its generator: of two
    documents one is asked for, and the failure is never met. *)
Lemma create_elmo_embeddings_stops_at_max_sentences_witness :
  create_elmo_embeddings (nlp:=interrupted) () ([0] ++ [1]) 1
    [ {[ "tokens" := VList ["A"; "fine"]; "label" := VInt 1 ]};
      {[ "tokens" := VList ["Dull"] ]} ]
  = Ok ([NDArray [2; 2] [4; 5; 6; 7]%Z], [VInt 1]).
Proof.
  apply (create_elmo_embeddings_stops_at_max_sentences (nlp:=interrupted)
           () [0] [1] 1 _ [["A"; "fine"]; ["Dull"]]
           [NDArray [3; 2; 2] [0; 1; 2; 3; 4; 5; 6; 7; 8; 9; 10; 11]%Z]
           [NDArray [3; 1; 2] [0; 1; 2; 3; 4; 5]%Z]).
  - reflexivity.
  - lia.
  - reflexivity.
  - reflexivity.
  - reflexivity.
  - repeat constructor.
  - repeat constructor. by eexists.
Defined.

(** X10 with the same embedder and no limit: the failure is the outcome. *)
Lemma create_elmo_embeddings_runs_to_the_end_witness :
  create_elmo_embeddings (nlp:=interrupted) () ([0] ++ []) 0
    [ {[ "tokens" := VList ["A"; "fine"]; "label" := VInt 1 ]} ]
  = match raises (embed_sentences (AllenNLP:=interrupted) () [["A"; "fine"]]) with
    | Some e => Raise e
    | None => Ok ([NDArray [2; 2] [4; 5; 6; 7]%Z], [VInt 1])
    end.
Proof.
  apply (create_elmo_embeddings_runs_to_the_end (nlp:=interrupted)
           () [0] [] 0 _ [["A"; "fine"]]).
  - reflexivity.
  - left. lia.
  - reflexivity.
  - repeat constructor.
  - repeat constructor. by eexists.
Defined.

(** X11 with an embedder that yields one array too many. *)
Lemma create_elmo_embeddings_too_many_items_witness :
  create_elmo_embeddings (nlp:=talkative) () [0] 0
    [ {[ "tokens" := VList ["A"; "fine"]; "label" := VInt 1 ]} ]
  = Raise IndexError.
Proof.
  apply (create_elmo_embeddings_too_many_items (nlp:=talkative)
           () [0] 0 _ [["A"; "fine"]]
           [NDArray [3; 2; 2] [0; 1; 2; 3; 4; 5; 6; 7; 8; 9; 10; 11]%Z] []
           [NDArray [2; 2] [4; 5; 6; 7]%Z] (NDArray [3; 0; 2] []) [VInt 1]).
  - reflexivity.
  - reflexivity.
  - reflexivity.
  - left. lia.
  - repeat constructor.
  - repeat constructor. by eexists.
Defined.

(** X12 at one document of two tokens. *)
Lemma create_elmo_embeddings_no_division_by_zero_witness :
  create_elmo_embeddings (nlp:=allennlp) () [0] 0
    [ {[ "tokens" := VList ["A"; "fine"]; "label" := VInt 1 ]} ]
  ≠ Raise ZeroDivisionError.
Proof.
  apply (create_elmo_embeddings_no_division_by_zero (nlp:=allennlp) () [0] 0 _).
  intros tokens [= <-]. split; [discriminate|].
  repeat constructor. discriminate.
Defined.

(** X13 at one sequence of exactly [max_tokens] rows. *)
Lemma pad_x_matrix_keeps_long_sequences_witness :
  pad_x_matrix [NDArray [100; 1] (replicate 100 7%Z)]
  = Ok (NDArray [length [NDArray [100; 1] (replicate 100 7%Z)]; 100; 1]
          (concat (data <$> [NDArray [100; 1] (replicate 100 7%Z)]))).
Proof.
  apply (pad_x_matrix_keeps_long_sequences [NDArray [100; 1] (replicate 100 7%Z)] 100 1).
  - done.
  - by repeat constructor.
  - unfold max_tokens. lia.
Defined.

(** X14 at two sequences of different embedding dimensions. *)
Lemma pad_x_matrix_value_error_witness :
  pad_x_matrix [NDArray [1; 2] [5; 7]%Z; NDArray [1; 3] [1; 2; 3]%Z]
  = Raise ValueError.
Proof.
  apply (pad_x_matrix_value_error
           [NDArray [1; 2] [5; 7]%Z; NDArray [1; 3] [1; 2; 3]%Z]).
  - repeat constructor; by eexists _, _.
  - exists (NDArray [1; 2] [5; 7]%Z), (NDArray [1; 3] [1; 2; 3]%Z), 1, 2, 1, 3.
    split; [apply list_elem_of_here|].
    split; [apply list_elem_of_further, list_elem_of_here|].
    split; [reflexivity|]. split; [reflexivity|]. left. lia.
Defined.

(** X15 at two documents, both embedded. *)
Lemma embeddings_pad_to_one_shape_witness :
  let h : heap :=
    [ {[ "tokens" := VList ["A"; "fine"]; "label" := VInt 1 ]};
      {[ "tokens" := VList ["Dull"]; "label" := VInt 0 ]} ] in
  ∃ (embeddings : list (ndarray Z)) (labels : list value) (m : ndarray Z),
    create_elmo_embeddings (nlp:=allennlp) () [0; 1] 1000 h = Ok (embeddings, labels) ∧
    length labels = 2 ∧
    pad_x_matrix embeddings = Ok m ∧
    shape m = [2; Z.to_nat max_tokens; 2].
Proof.
  intros h.
  apply (embeddings_pad_to_one_shape (nlp:=allennlp) () [0; 1] 1000 h
           [["A"; "fine"]; ["Dull"]] 3 2).
  - done.
  - lia.
  - reflexivity.
  - repeat constructor; unfold max_tokens; simpl; lia.
  - intros l Hl. rewrite !elem_of_cons, elem_of_nil in Hl.
    destruct Hl as [->|[->|[]]]; eexists; (split; [reflexivity|]); by eexists.
  - reflexivity.
  - repeat constructor.
Defined.

(** X16 at a file with markup other than the line break. *)
Lemma load_file_verbatim_witness :
  load_file (os:=plain) "reviews" 1 ([], []) "0_9.txt"
  = Ok ([] ++ [length ([] : heap)],
        [] ++ [{[ "text" := VStr "A fine film, <b>really</b>"; "label" := VInt 1 ]}]).
Proof.
  apply (load_file_verbatim (os:=plain) "reviews" "0_9.txt"
           "A fine film, <b>really</b>" 1 [] []).
  - reflexivity.
  - apply occurs_false_no_occurrence. reflexivity.
Defined.
